(** * A chat client for a retrieval backend: model of [app.py]

    The script is re-executed from top to bottom on every render pass.  The
    model follows it section by section: the helpers ([_get_backend_url],
    [_healthcheck], [_post_query], [_render_citations], [_render_followups]),
    then the page ([sidebar], [session_state_init], [chat_history], [input]
    with [_send_and_render]).

    Effects are explicit.  A computation runs on a [World]: the contents of
    [st.session_state] and the log of what was sent over HTTP and drawn on
    the page.  An exception leaves the world as it was when it was raised,
    as in Python.  What the outside answers on one pass (widget values, HTTP
    replies, the clock) is an [Env] of oracles.  [st.session_state] is a
    dictionary: a key is there or not, and an assignment to a key goes
    through, except to the key of a widget already created on the pass,
    which streamlit refuses with an exception. *)

From Stdlib Require Import ZArith List String Ascii Bool Lia.
From Stdlib Require Import DecimalString.
From Stdlib Require DecimalZ DecimalPos.
Import ListNotations.

Local Open Scope string_scope.
Local Open Scope Z_scope.

(** ** Python values and built-ins used by the script *)

Module Py.

(** [bool(s)] for a [str]. *)
Definition truthy (s : string) : bool := negb (String.eqb s "").

(** [bool(o)] for an [Optional[str]]. *)
Definition truthy_opt (o : option string) : bool :=
  match o with
  | Some s => truthy s
  | None => false
  end.

(** [o or d] where [o] is an [Optional[str]]. *)
Definition or_str (o : option string) (d : string) : string :=
  match o with
  | Some s => if truthy s then s else d
  | None => d
  end.

(** [o or []] where [o] is an optional list. *)
Definition or_list {A} (o : option (list A)) : list A :=
  match o with
  | Some (x :: l) => x :: l
  | _ => []
  end.

(** [l[i:]]: a negative [i] counts from the end, and both ends saturate. *)
Definition slice_from {A} (i : Z) (l : list A) : list A :=
  let n := Z.of_nat (List.length l) in
  let start := if i <? 0 then Z.max (n + i) 0 else Z.min i n in
  skipn (Z.to_nat start) l.

(** [str(z)] for an [int]. *)
Definition str_int (z : Z) : string := NilZero.string_of_int (Z.to_int z).

(** [f"{o}"] for an [Optional[int]]. *)
Definition str_opt_int (o : option Z) : string :=
  match o with
  | Some z => str_int z
  | None => "None"
  end.

(** [s.rstrip(c)] for a one-character [c]. *)
Fixpoint rstrip (c : ascii) (s : string) : string :=
  match s with
  | EmptyString => EmptyString
  | String a r =>
      match rstrip c r with
      | EmptyString => if Ascii.eqb a c then EmptyString else String a EmptyString
      | r' => String a r'
      end
  end.

(** [s.replace(c, t)] for a one-character [c]. *)
Fixpoint replace_char (c : ascii) (t : string) (s : string) : string :=
  match s with
  | EmptyString => EmptyString
  | String a r =>
      (if Ascii.eqb a c then t else String a EmptyString) ++ replace_char c t r
  end.

Definition nl : string := String (ascii_of_nat 10) EmptyString.
Definition dquote : string := String (ascii_of_nat 34) EmptyString.

(** [html.escape(s)] (with its default [quote=True]). *)
Fixpoint html_escape (s : string) : string :=
  match s with
  | EmptyString => EmptyString
  | String a r =>
      (match nat_of_ascii a with
       | 38%nat => "&amp;"
       | 60%nat => "&lt;"
       | 62%nat => "&gt;"
       | 34%nat => "&quot;"
       | 39%nat => "&#x27;"
       | _ => String a EmptyString
       end) ++ html_escape r
  end.

End Py.

(** ** Exceptions and results *)

Inductive exn_class : Type :=
| ConnectionError
| ReadTimeout
| HTTPError
| JSONDecodeError
| AttributeError
| StreamlitAPIException
| OtherException.

(** An instance of (a subclass of) [Exception]; [exn_str e] is [str(e)]. *)
Record exn : Type := Exn { exn_kind : exn_class; exn_str : string }.

Inductive result (A : Type) : Type :=
| Ok (a : A)
| Raise (e : exn).
Arguments Ok {A} a.
Arguments Raise {A} e.

(** ** Data model *)

(** One entry of the history, [{"role": ..., "content": ...}]. *)
Record Message : Type := { role : string; content : string }.

(** The JSON body of [POST /query]; [history = None] is JSON [null]. *)
Record Payload : Type :=
  { query : string; top_k : Z; history : option (list Message) }.

(** One citation of the response; an absent or [null] key is [None]. *)
Record Citation : Type :=
  { rank : option Z;
    title : option string;
    source_url : option string;
    source_domain : option string;
    date : option string;
    snippet : option string }.

(** The decoded body of a successful [POST /query]. *)
Record QueryResponse : Type :=
  { answer : option string;
    citations : option (list Citation);
    follow_ups : option (list string) }.

(** The decoded body of [GET /health], also what [_healthcheck] returns. *)
Record HealthStatus : Type :=
  { status : option string; detail : option string }.

(** ** The [requests] library *)

Module requests.

(** A [requests.Response]: [json] is what calling [resp.json()] gives. *)
Record Response (A : Type) : Type :=
  { status_code : Z; reason : string; url : string; json : result A }.
Arguments status_code {A} _.
Arguments reason {A} _.
Arguments url {A} _.
Arguments json {A} _.

(** [resp.raise_for_status()]: raises [HTTPError] exactly for the client
    error (4xx) and server error (5xx) codes. *)
Definition raise_for_status {A} (resp : Response A) : result unit :=
  let code := status_code resp in
  if (400 <=? code) && (code <? 500) then
    Raise (Exn HTTPError
             (Py.str_int code ++ " Client Error: " ++ reason resp
                ++ " for url: " ++ url resp))
  else if (500 <=? code) && (code <? 600) then
    Raise (Exn HTTPError
             (Py.str_int code ++ " Server Error: " ++ reason resp
                ++ " for url: " ++ url resp))
  else Ok tt.

(** [resp.ok]: true when [raise_for_status] would not raise. *)
Definition ok {A} (resp : Response A) : bool :=
  match raise_for_status resp with
  | Ok _ => true
  | Raise _ => false
  end.

(** The network on one pass: the outcome of [requests.get(url, timeout)]
    and of [requests.post(url, json, timeout)]. *)
Record Net : Type :=
  { get : string -> Z -> result (Response HealthStatus);
    post : string -> Payload -> Z -> result (Response QueryResponse) }.

End requests.

(** ** The [streamlit] library, as the script uses it *)

Module session_state.

(** [st.session_state], with the five keys the script uses; a key that
    is not in the dictionary is [None]. *)
Record t : Type :=
  { backend_url : option string;
    top_k : option Z;
    messages : option (list Message);
    pending_input : option string;
    chat_input : option string }.

Definition empty : t :=
  {| backend_url := None; top_k := None; messages := None;
     pending_input := None; chat_input := None |}.

Definition set_backend_url (v : option string) (s : t) : t :=
  {| backend_url := v; top_k := top_k s; messages := messages s;
     pending_input := pending_input s; chat_input := chat_input s |}.

Definition set_top_k (v : option Z) (s : t) : t :=
  {| backend_url := backend_url s; top_k := v; messages := messages s;
     pending_input := pending_input s; chat_input := chat_input s |}.

Definition set_messages (v : option (list Message)) (s : t) : t :=
  {| backend_url := backend_url s; top_k := top_k s; messages := v;
     pending_input := pending_input s; chat_input := chat_input s |}.

Definition set_pending_input (v : option string) (s : t) : t :=
  {| backend_url := backend_url s; top_k := top_k s; messages := messages s;
     pending_input := v; chat_input := chat_input s |}.

End session_state.

Module st.

(** Where an element is drawn. *)
Inductive Container : Type := Sidebar | Main | Placeholder.

(** The elements the script draws, with the arguments that matter. *)
Inductive Element : Type :=
| Subheader (body : string)
| TextInput (label value : string)
| Success (body : string)
| Warning (body : string)
| Error (body : string)
| Expander (label : string)
| Slider (label : string) (min_value max_value value : Z)
| Title (body : string)
| Caption (body : string)
| Markdown (body : string) (unsafe_allow_html : bool)
| Write (body : string)
| Divider
| ChatMessage (name : string)
| ChatInput (placeholder key : string) (max_chars : Z)
| Columns (spec : nat)
| Button (label key : string) (column : nat)
| Spinner (text : string)
| Empty.

(** What the browser answers on one pass.  [slider label lo hi value] is
    what the slider created with these arguments returns: it may refuse
    them, and it does not bring [value] back between [lo] and [hi] but
    widens its range to hold it.  [chat_input] is [None] when nothing was
    submitted; [button label key] tells whether that button was just
    selected. *)
Record Front : Type :=
  { text_input : string -> string -> string;
    slider : string -> Z -> Z -> Z -> result Z;
    chat_input : option string;
    button : string -> string -> bool }.

End st.

(** ** Worlds, events and the monad of the script *)

Inductive Event : Type :=
| HttpGet (url : string) (timeout : Z)
| HttpPost (url : string) (json : Payload) (timeout : Z)
| Draw (c : st.Container) (e : st.Element).

Record World : Type :=
  { session : session_state.t; trace : list Event }.

(** Everything outside the script on one pass. *)
Record Env : Type :=
  { getenv_RAG_BACKEND_URL : option string;
    front : st.Front;
    net : requests.Net;
    (** [f"{elapsed:.1f}"], from the two readings of [time.time()] *)
    elapsed_1f : string }.

Definition M (A : Type) : Type := World -> result A * World.

Definition ret {A} (a : A) : M A := fun w => (Ok a, w).

Definition bind {A B} (m : M A) (f : A -> M B) : M B :=
  fun w =>
    match m w with
    | (Ok a, w') => f a w'
    | (Raise e, w') => (Raise e, w')
    end.

Definition raise {A} (e : exn) : M A := fun w => (Raise e, w).

(** [try: body  except Exception as e: handler e]. *)
Definition try_except {A} (body : M A) (handler : exn -> M A) : M A :=
  fun w =>
    match body w with
    | (Ok a, w') => (Ok a, w')
    | (Raise e, w') => handler e w'
    end.

Definition lift {A} (r : result A) : M A := fun w => (r, w).

Definition emit (ev : Event) : M unit :=
  fun w => (Ok tt, {| session := session w; trace := (trace w ++ [ev])%list |}).

Definition draw (c : st.Container) (e : st.Element) : M unit :=
  emit (Draw c e).

Definition get_state : M session_state.t := fun w => (Ok (session w), w).

Definition modify_state (f : session_state.t -> session_state.t) : M unit :=
  fun w => (Ok tt, {| session := f (session w); trace := trace w |}).

(** [st.session_state.<key>] for a key that must be there. *)
Definition get_attr {A} (key : string) (proj : session_state.t -> option A) : M A :=
  fun w =>
    match proj (session w) with
    | Some v => (Ok v, w)
    | None =>
        (Raise (Exn AttributeError
                  ("st.session_state has no attribute " ++ Py.dquote ++ key
                     ++ Py.dquote ++ ". Did you forget to initialize it? "
                     ++ "More info: https://docs.streamlit.io/develop/concepts/architecture/session-state#initialization")),
         w)
    end.

(** [st.session_state.<key> = v] for the [key] of a widget that was
    already created on this pass: streamlit refuses the assignment. *)
Definition set_widget_key_after_creation (key : string) : M unit :=
  raise (Exn StreamlitAPIException
           ("`st.session_state." ++ key
              ++ "` cannot be modified after the widget with key `" ++ key
              ++ "` is instantiated.")).

Declare Scope monad_scope.
Delimit Scope monad_scope with monad.
Notation "x <- m ;; k" := (bind m (fun x => k))
  (at level 61, m at next level, right associativity) : monad_scope.
Notation "m ;; k" := (bind m (fun _ => k))
  (at level 61, right associativity) : monad_scope.
Local Open Scope monad_scope.

(** [for x in l: body x]. *)
Fixpoint for_each {A} (l : list A) (body : A -> M unit) : M unit :=
  match l with
  | [] => ret tt
  | x :: l' => body x ;; for_each l' body
  end.

(** [for i, x in enumerate(l): body i x], counting from [i]. *)
Fixpoint for_enumerate {A} (i : nat) (l : list A) (body : nat -> A -> M unit) : M unit :=
  match l with
  | [] => ret tt
  | x :: l' => body i x ;; for_enumerate (S i) l' body
  end.

(** ** Helpers *)

Definition DEFAULT_BACKEND_URL (env : Env) : string :=
  Py.rstrip "/"
    (match getenv_RAG_BACKEND_URL env with
     | Some v => v
     | None => "https://rag-pipeline-1gmu.onrender.com"
     end).

(** [_get_backend_url()], as a function of the session state it reads. *)
Definition _get_backend_url (env : Env) (s : session_state.t) : string :=
  let url := Py.or_str (session_state.backend_url s) (DEFAULT_BACKEND_URL env) in
  Py.rstrip "/" url.

Definition error_status (d : string) : HealthStatus :=
  {| status := Some "error"; detail := Some d |}.

Definition requests_get (env : Env) (url : string) (timeout : Z)
  : M (requests.Response HealthStatus) :=
  emit (HttpGet url timeout) ;;
  lift (requests.get (net env) url timeout).

Definition requests_post (env : Env) (url : string) (json : Payload) (timeout : Z)
  : M (requests.Response QueryResponse) :=
  emit (HttpPost url json timeout) ;;
  lift (requests.post (net env) url json timeout).

Definition _healthcheck (env : Env) (url : string) : M HealthStatus :=
  try_except
    (resp <- requests_get env (url ++ "/health") 5 ;;
     if requests.ok resp then
       lift (requests.json resp)
     else
       ret (error_status ("HTTP " ++ Py.str_int (requests.status_code resp))))
    (fun e => ret (error_status (exn_str e))).

(** The dictionary literal of [_post_query]. *)
Definition payload (query_text : string) (top_k : Z) (history : list Message)
  : Payload :=
  {| query := query_text;
     top_k := top_k;
     history := match history with
                | [] => None
                | _ :: _ => Some (Py.slice_from (-6) history)
                end |}.

Definition _post_query (env : Env) (url query_text : string) (top_k : Z)
  (history : list Message) : M QueryResponse :=
  resp <- requests_post env (url ++ "/query") (payload query_text top_k history) 120 ;;
  lift (requests.raise_for_status resp) ;;
  lift (requests.json resp).

Definition citation_notes : string :=
  "Practical notes:" ++ Py.nl
  ++ "- The number of citations equals retrieved matches (up to top_k)." ++ Py.nl
  ++ "- rank reflects Pinecone similarity order." ++ Py.nl
  ++ "- snippet is the chunk text; title, source_url, etc., come from metadata.".

(** The body of the loop of [_render_citations]. *)
Definition render_citation (c : Citation) : M unit :=
  let title := Py.or_str (title c) "Untitled" in
  let header := "[" ++ Py.str_opt_int (rank c) ++ "] " ++ title in
  draw st.Main (st.Markdown ("**" ++ header ++ "**") false) ;;
  let meta_bits :=
    List.flat_map
      (fun b => if Py.truthy_opt b then [Py.or_str b ""] else [])
      [source_domain c; date c] in
  (match meta_bits with
   | [] => ret tt
   | _ :: _ => draw st.Main (st.Caption (String.concat " • " meta_bits))
   end) ;;
  (if Py.truthy_opt (snippet c)
   then draw st.Main (st.Write (Py.or_str (snippet c) ""))
   else ret tt) ;;
  (if Py.truthy_opt (source_url c)
   then draw st.Main
          (st.Markdown ("[Open source](" ++ Py.or_str (source_url c) "" ++ ")") false)
   else ret tt) ;;
  draw st.Main st.Divider.

Definition _render_citations (citations : list Citation) : M unit :=
  match citations with
  | [] => ret tt
  | _ :: _ =>
      draw st.Main (st.Expander "Citations") ;;
      let encoded :=
        Py.replace_char (ascii_of_nat 10) "&#10;" (Py.html_escape citation_notes) in
      draw st.Main
        (st.Markdown
           ("<span title=" ++ Py.dquote ++ encoded ++ Py.dquote ++ ">ℹ️</span> "
              ++ "<span style=" ++ Py.dquote ++ "color:#6b7280" ++ Py.dquote
              ++ ">Hover for citation notes</span>")
           true) ;;
      for_each citations render_citation
  end.

(** [f"fu_{i}"]. *)
Definition fu_key (i : nat) : string := "fu_" ++ Py.str_int (Z.of_nat i).

(** The body of the loop of [_render_followups], for [ncols] columns. *)
Definition render_followup (env : Env) (ncols : nat) (i : nat) (fu : string) : M unit :=
  draw st.Main (st.Button fu (fu_key i) (i mod ncols)) ;;
  if st.button (front env) fu (fu_key i) then
    modify_state (session_state.set_pending_input (Some fu))
  else ret tt.

Definition _render_followups (env : Env) (follow_ups : list string) : M unit :=
  match follow_ups with
  | [] => ret tt
  | _ :: _ =>
      draw st.Main (st.Caption "Try one of these:") ;;
      let ncols := Nat.min 3 (List.length follow_ups) in
      draw st.Main (st.Columns ncols) ;;
      for_enumerate 0 follow_ups (render_followup env ncols)
  end.

(** ** The page

    [st.set_page_config] and the style sheet only set page metadata and
    are left out. *)

Definition health_badge (health : HealthStatus) : M unit :=
  let status := match status health with Some v => v | None => "unknown" end in
  let detail := detail health in
  if String.eqb status "ok" then
    draw st.Sidebar (st.Success "API healthy")
  else if String.eqb status "missing_keys" then
    draw st.Sidebar (st.Warning "API reachable — missing keys")
  else if String.eqb status "error" then
    let msg := if Py.truthy_opt detail
               then "API error: " ++ Py.or_str detail ""
               else "API error" in
    draw st.Sidebar (st.Error msg)
  else
    draw st.Sidebar (st.Warning "API status unknown").

Definition sidebar (env : Env) : M unit :=
  draw st.Sidebar (st.Subheader "Backend") ;;
  s <- get_state ;;
  (match session_state.backend_url s with
   | None => modify_state (session_state.set_backend_url (Some (DEFAULT_BACKEND_URL env)))
   | Some _ => ret tt
   end) ;;
  value <- get_attr "backend_url" session_state.backend_url ;;
  draw st.Sidebar (st.TextInput "Backend URL" value) ;;
  let backend_url := st.text_input (front env) "Backend URL" value in
  modify_state (session_state.set_backend_url (Some backend_url)) ;;
  s <- get_state ;;
  health <- _healthcheck env (_get_backend_url env s) ;;
  health_badge health ;;
  draw st.Sidebar (st.Expander "Options") ;;
  s <- get_state ;;
  (match session_state.top_k s with
   | None => modify_state (session_state.set_top_k (Some 5))
   | Some _ => ret tt
   end) ;;
  value <- get_attr "top_k" session_state.top_k ;;
  draw st.Sidebar (st.Slider "Top K" 1 20 value) ;;
  v <- lift (st.slider (front env) "Top K" 1 20 value) ;;
  modify_state (session_state.set_top_k (Some v)).

Definition session_state_init : M unit :=
  s <- get_state ;;
  match session_state.messages s with
  | None => modify_state (session_state.set_messages (Some []))
  | Some _ => ret tt
  end.

Definition chat_history : M unit :=
  ms <- get_attr "messages" session_state.messages ;;
  for_each ms
    (fun m =>
       draw st.Main (st.ChatMessage (role m)) ;;
       draw st.Main (st.Markdown (content m) false)).

(** [st.session_state.messages.append(m)]. *)
Definition messages_append (m : Message) : M unit :=
  ms <- get_attr "messages" session_state.messages ;;
  modify_state (session_state.set_messages (Some (ms ++ [m])%list)).

Definition user_message (text : string) : Message :=
  {| role := "user"; content := text |}.

Definition assistant_message (text : string) : Message :=
  {| role := "assistant"; content := text |}.

Definition _send_and_render (env : Env) (query_text : string) : M unit :=
  messages_append (user_message query_text) ;;
  draw st.Main (st.ChatMessage "user") ;;
  draw st.Main (st.Markdown query_text false) ;;
  draw st.Main (st.ChatMessage "assistant") ;;
  draw st.Placeholder st.Empty ;;
  draw st.Main (st.Spinner "Thinking...") ;;
  try_except
    (s <- get_state ;;
     let url := _get_backend_url env s in
     top_k <- get_attr "top_k" session_state.top_k ;;
     history <- get_attr "messages" session_state.messages ;;
     resp <- _post_query env url query_text top_k history ;;
     let answer := Py.or_str (answer resp) "No answer returned." in
     let citations := Py.or_list (citations resp) in
     let follow_ups := Py.or_list (follow_ups resp) in
     draw st.Placeholder (st.Markdown answer false) ;;
     draw st.Main (st.Caption ("Answered in " ++ elapsed_1f env ++ "s")) ;;
     _render_citations citations ;;
     _render_followups env follow_ups ;;
     messages_append (assistant_message answer))
    (fun e => draw st.Placeholder (st.Error ("Request failed: " ++ exn_str e))).

(** The section of the script under [# --- Input ---], to its last line.
    The chat box of key [chat_input] is created before the assignment to
    [st.session_state.chat_input], so that assignment raises. *)
Definition input (env : Env) : M unit :=
  s <- get_state ;;
  prompt_prefill <-
    (match session_state.pending_input s with
     | Some v => modify_state (session_state.set_pending_input None) ;; ret v
     | None => ret ""
     end) ;;
  draw st.Main (st.ChatInput "Ask a question" "chat_input" 2000) ;;
  let user_input := st.chat_input (front env) in
  user_input <-
    (if Py.truthy prompt_prefill && negb (Py.truthy_opt user_input) then
       set_widget_key_after_creation "chat_input" ;;
       ret (Some prompt_prefill)
     else ret user_input) ;;
  match user_input with
  | Some text => if Py.truthy text then _send_and_render env text else ret tt
  | None => ret tt
  end.

(** One render pass: the script from its first line to its last. *)
Definition app (env : Env) : M unit :=
  sidebar env ;;
  session_state_init ;;
  draw st.Main (st.Title "Software Finder Demo") ;;
  draw st.Main
    (st.Caption "Ask questions about your ingested reviews. Clean, minimal, and fast.") ;;
  chat_history ;;
  input env.

(** A session: the passes run one after the other on the same session
    state; a pass that raises stops there and the next one starts from the
    state it left. *)
Fixpoint run (envs : list Env) (w : World) : World :=
  match envs with
  | [] => w
  | env :: envs' => run envs' (snd (app env w))
  end.

(** ** Vocabulary of the statements *)

(** The world after some more events were logged. *)
Definition add_trace (evs : list Event) (w : World) : World :=
  {| session := session w; trace := (trace w ++ evs)%list |}.

Definition is_draw (ev : Event) : Prop :=
  match ev with
  | Draw _ _ => True
  | _ => False
  end.

(** A computation that only draws: it returns, and leaves the session
    state alone. *)
Definition draws_only (m : M unit) : Prop :=
  forall w, exists evs, m w = (Ok tt, add_trace evs w) /\ Forall is_draw evs.

(** The follow-up whose button was selected while the loop of
    [_render_followups] ran from index [i]: the last one, if several. *)
Fixpoint selected (env : Env) (i : nat) (follow_ups : list string) : option string :=
  match follow_ups with
  | [] => None
  | fu :: rest =>
      match selected env (S i) rest with
      | Some x => Some x
      | None => if st.button (front env) fu (fu_key i) then Some fu else None
      end
  end.

(** The session state after the follow-up buttons were drawn. *)
Definition after_followups (env : Env) (follow_ups : list string)
  (s : session_state.t) : session_state.t :=
  match selected env 0 follow_ups with
  | Some fu => session_state.set_pending_input (Some fu) s
  | None => s
  end.

(** The history as a list: no [messages] key yet means no message. *)
Definition messages_of (w : World) : list Message :=
  match session_state.messages (session w) with
  | Some ms => ms
  | None => []
  end.

(** The requests a trace holds. *)
Definition posted (tr : list Event) : list Payload :=
  List.flat_map
    (fun ev => match ev with
               | HttpPost _ json _ => [json]
               | _ => []
               end) tr.

Definition valid_message (m : Message) : Prop :=
  (role m = "user" \/ role m = "assistant") /\ content m <> "".

(** What a slider returns lies in its range, which is the range asked
    for, widened to hold the value the slider was created with. *)
Definition slider_in_range (env : Env) : Prop :=
  forall label lo hi value v,
    lo <= hi ->
    st.slider (front env) label lo hi value = Ok v ->
    Z.min lo value <= v <= Z.max hi value.

(** What [_send_and_render] draws before it calls the backend. *)
Definition send_prelude (query_text : string) : list Event :=
  [ Draw st.Main (st.ChatMessage "user");
    Draw st.Main (st.Markdown query_text false);
    Draw st.Main (st.ChatMessage "assistant");
    Draw st.Placeholder st.Empty;
    Draw st.Main (st.Spinner "Thinking...") ].

(** The request of one exchange, as logged. *)
Definition query_event (env : Env) (s : session_state.t) (query_text : string)
  (top_k : Z) (history : list Message) : Event :=
  HttpPost (_get_backend_url env s ++ "/query") (payload query_text top_k history) 120.

(** ** Concrete worlds, used to run the model *)

Module Demo.

(** A browser in which nothing was typed, moved or selected: the text
    box and the slider return the value they were created with. *)
Definition idle : st.Front :=
  {| st.text_input := fun _ value => value;
     st.slider := fun _ lo hi value => Ok value;
     st.chat_input := None;
     st.button := fun _ _ => false |}.

(** The same browser after [text] was submitted in the chat box. *)
Definition typing (text : string) : st.Front :=
  {| st.text_input := st.text_input idle;
     st.slider := st.slider idle;
     st.chat_input := Some text;
     st.button := st.button idle |}.


Definition healthy (url : string) : requests.Response HealthStatus :=
  {| requests.status_code := 200; requests.reason := "OK"; requests.url := url;
     requests.json := Ok {| status := Some "ok"; detail := None |} |}.

Definition doc_a : Citation :=
  {| rank := Some 1; title := Some "Doc A"; source_url := Some "http://a";
     source_domain := None; date := None; snippet := Some "X is great" |}.

Definition about_x : QueryResponse :=
  {| answer := Some "X is a tool.";
     citations := Some [doc_a];
     follow_ups := Some ["How much does X cost?"] |}.

Definition no_answer : QueryResponse :=
  {| answer := None; citations := Some []; follow_ups := None |}.

(** A backend that answers every query with [body] and status [code]. *)
Definition backend (code : Z) (reason : string) (body : result QueryResponse)
  : requests.Net :=
  {| requests.get := fun url _ => Ok (healthy url);
     requests.post := fun url _ _ =>
       Ok {| requests.status_code := code; requests.reason := reason;
             requests.url := url; requests.json := body |} |}.

Definition timed_out : exn :=
  Exn ReadTimeout "HTTPSConnectionPool(host='backend', port=443): Read timed out. (read timeout=120)".

(** A backend whose [/query] never answers in time. *)
Definition slow_backend : requests.Net :=
  {| requests.get := fun url _ => Ok (healthy url);
     requests.post := fun _ _ _ => Raise timed_out |}.

(** A backend whose [/health] answers that it is healthy, with the
    status [code]. *)
Definition health_with_status (code : Z) (reason : string) : requests.Net :=
  {| requests.get := fun url _ =>
       Ok {| requests.status_code := code; requests.reason := reason;
             requests.url := url;
             requests.json := Ok {| status := Some "ok"; detail := None |} |};
     requests.post := fun _ _ _ => Raise timed_out |}.

(** A backend whose [/health] answers with status [code] and no body. *)
Definition unhealthy (code : Z) (reason : string) : requests.Net :=
  {| requests.get := fun url _ =>
       Ok {| requests.status_code := code; requests.reason := reason;
             requests.url := url;
             requests.json := Raise (Exn JSONDecodeError
                                       "Expecting value: line 1 column 1 (char 0)") |};
     requests.post := fun _ _ _ => Raise timed_out |}.

Definition env (f : st.Front) (n : requests.Net) : Env :=
  {| getenv_RAG_BACKEND_URL := Some "https://backend/";
     front := f; net := n; elapsed_1f := "0.4" |}.

Definition fresh : World := {| session := session_state.empty; trace := [] |}.

(** A session in which [ms] was exchanged and [pending] is pending. *)
Definition ongoing (ms : list Message) (pending : option string) : session_state.t :=
  {| session_state.backend_url := Some "https://backend";
     session_state.top_k := Some 5;
     session_state.messages := Some ms;
     session_state.pending_input := pending;
     session_state.chat_input := None |}.

Definition seven : list Message :=
  [ user_message "q1"; assistant_message "a1";
    user_message "q2"; assistant_message "a2";
    user_message "q3"; assistant_message "a3";
    user_message "q4" ].

End Demo.

(** The chat box, as drawn by the input section. *)
Definition chat_box : Event :=
  Draw st.Main (st.ChatInput "Ask a question" "chat_input" 2000).

(** The value the slider is created with: the stored [top_k], or 5 on the
    first pass of a session. *)
Definition slider_value (s : session_state.t) : Z :=
  match session_state.top_k s with
  | Some k => k
  | None => 5
  end.

(** What the slider answers on this pass. *)
Definition slider_answer (env : Env) (s : session_state.t) : result Z :=
  st.slider (front env) "Top K" 1 20 (slider_value s).

(** What the text box of the sidebar answers on this pass. *)
Definition entered_backend_url (env : Env) (s : session_state.t) : string :=
  st.text_input (front env) "Backend URL"
    (match session_state.backend_url s with
     | Some b => b
     | None => DEFAULT_BACKEND_URL env
     end).

(** The session state once the sidebar and the initialisation of
    [messages] are done, the slider having answered [v]. *)
Definition ready (env : Env) (s : session_state.t) (v : Z) : session_state.t :=
  {| session_state.backend_url := Some (entered_backend_url env s);
     session_state.top_k := Some v;
     session_state.messages :=
       Some (match session_state.messages s with
             | Some ms => ms
             | None => []
             end);
     session_state.pending_input := session_state.pending_input s;
     session_state.chat_input := session_state.chat_input s |}.

(** The session state when the slider refused its value: the pass stops
    in the sidebar, before [messages] is initialised. *)
Definition stopped (env : Env) (s : session_state.t) : session_state.t :=
  {| session_state.backend_url := Some (entered_backend_url env s);
     session_state.top_k := Some (slider_value s);
     session_state.messages := session_state.messages s;
     session_state.pending_input := session_state.pending_input s;
     session_state.chat_input := session_state.chat_input s |}.

(** ** Further vocabulary *)

(** [s.endswith(c)] for a one-character [c]. *)
Fixpoint ends_with (c : ascii) (s : string) : bool :=
  match s with
  | EmptyString => false
  | String a EmptyString => Ascii.eqb a c
  | String _ r => ends_with c r
  end.

(** [c * n]. *)
Fixpoint repeat_char (c : ascii) (n : nat) : string :=
  match n with
  | O => EmptyString
  | S n' => String c (repeat_char c n')
  end.

(** The base URL of a pass: what the text box answered, or the default
    when it answered nothing, without its trailing slashes. *)
Definition pass_base_url (env : Env) (s : session_state.t) : string :=
  Py.rstrip "/" (Py.or_str (Some (entered_backend_url env s)) (DEFAULT_BACKEND_URL env)).

(** The HTTP traffic of a trace, in order. *)
Definition http_events (evs : list Event) : list Event :=
  List.filter
    (fun ev => match ev with
               | Draw _ _ => false
               | _ => true
               end) evs.

(** The buttons of a trace, as (label, key), in order. *)
Definition buttons (evs : list Event) : list (string * string) :=
  List.flat_map
    (fun ev => match ev with
               | Draw _ (st.Button label key _) => [(label, key)]
               | _ => []
               end) evs.

(** The number of separators of a trace. *)
Definition dividers (evs : list Event) : nat :=
  List.length
    (List.filter
       (fun ev => match ev with
                  | Draw _ st.Divider => true
                  | _ => false
                  end) evs).

(** The header line of a citation, as [_render_citations] draws it. *)
Definition citation_header (c : Citation) : Event :=
  Draw st.Main
    (st.Markdown
       ("**" ++ ("[" ++ Py.str_opt_int (rank c) ++ "] "
                   ++ Py.or_str (title c) "Untitled") ++ "**")
       false).

(** The two elements drawn for a message of the history. *)
Definition bubble (m : Message) : list Event :=
  [ Draw st.Main (st.ChatMessage (role m));
    Draw st.Main (st.Markdown (content m) false) ].

(** What the sidebar logs on a pass, [badge] being the element that
    reports the health of the backend. *)
Definition sidebar_events (env : Env) (s : session_state.t) (badge : st.Element)
  : list Event :=
  [ Draw st.Sidebar (st.Subheader "Backend");
    Draw st.Sidebar
      (st.TextInput "Backend URL"
         (match session_state.backend_url s with
          | Some b => b
          | None => DEFAULT_BACKEND_URL env
          end));
    HttpGet (pass_base_url env s ++ "/health") 5;
    Draw st.Sidebar badge;
    Draw st.Sidebar (st.Expander "Options");
    Draw st.Sidebar (st.Slider "Top K" 1 20 (slider_value s)) ].

(** The heading of the page. *)
Definition page_heading : list Event :=
  [ Draw st.Main (st.Title "Software Finder Demo");
    Draw st.Main
      (st.Caption "Ask questions about your ingested reviews. Clean, minimal, and fast.") ].

(** What is drawn for one citation: its header first, a separator last,
    and no separator in between. *)
Definition citation_block (c : Citation) (block : list Event) : Prop :=
  exists middle,
    block = (citation_header c :: middle ++ [Draw st.Main st.Divider])%list
    /\ Forall is_draw middle
    /\ dividers middle = 0%nat.

(** The number of health checks of a trace. *)
Definition health_checks (evs : list Event) : nat :=
  List.length
    (List.filter
       (fun ev => match ev with
                  | HttpGet _ _ => true
                  | _ => false
                  end) evs).

(** A computation that draws exactly [evs], whatever the world, returns,
    and leaves the session state alone. *)
Definition draws (m : M unit) (evs : list Event) : Prop :=
  forall w, m w = (Ok tt, add_trace evs w).

(** ** Running the monad *)

Lemma add_trace_nil w : add_trace [] w = w.
Proof. destruct w; unfold add_trace; cbn. now rewrite app_nil_r. Qed.

Lemma add_trace_app evs1 evs2 w :
  add_trace evs2 (add_trace evs1 w) = add_trace (evs1 ++ evs2)%list w.
Proof. unfold add_trace; cbn. now rewrite app_assoc. Qed.

Lemma draws_only_ret : draws_only (ret tt).
Proof.
  intros w. exists []. split; [| constructor].
  now rewrite add_trace_nil.
Qed.

Lemma draws_only_draw c e : draws_only (draw c e).
Proof.
  intros w. exists [Draw c e]. split; [reflexivity |].
  repeat constructor.
Qed.

Lemma draws_only_seq (m1 m2 : M unit) :
  draws_only m1 -> draws_only m2 -> draws_only (m1 ;; m2).
Proof.
  intros H1 H2 w.
  destruct (H1 w) as (evs1 & E1 & F1).
  destruct (H2 (add_trace evs1 w)) as (evs2 & E2 & F2).
  exists (evs1 ++ evs2)%list. split.
  - unfold bind. rewrite E1, E2. now rewrite add_trace_app.
  - apply Forall_app; split; assumption.
Qed.

Lemma draws_only_for_each {A} (l : list A) (body : A -> M unit) :
  (forall x, draws_only (body x)) -> draws_only (for_each l body).
Proof.
  intros Hb. induction l as [| x l IH]; cbn [for_each].
  - apply draws_only_ret.
  - apply draws_only_seq; [apply Hb | exact IH].
Qed.

Create HintDb draws.
#[local] Hint Resolve draws_only_ret draws_only_draw draws_only_seq
  draws_only_for_each : draws.

Lemma render_citation_draws c : draws_only (render_citation c).
Proof.
  unfold render_citation.
  repeat (apply draws_only_seq); auto with draws.
  - destruct (flat_map _ _); auto with draws.
  - destruct (Py.truthy_opt (snippet c)); auto with draws.
  - destruct (Py.truthy_opt (source_url c)); auto with draws.
Qed.

Lemma _render_citations_draws cs : draws_only (_render_citations cs).
Proof.
  destruct cs as [| c cs]; cbn [_render_citations]; auto with draws.
  generalize (c :: cs); intros l.
  do 2 (apply draws_only_seq; auto with draws).
  apply draws_only_for_each, render_citation_draws.
Qed.

Lemma health_badge_draws h : draws_only (health_badge h).
Proof.
  unfold health_badge.
  repeat (match goal with |- context [if ?b then _ else _] => destruct b end);
    auto with draws.
Qed.

Ltac run_monad :=
  unfold messages_append, requests_get, requests_post, draw;
  unfold bind, ret, emit, get_state, modify_state, get_attr, lift, try_except, raise;
  cbn [session trace fst snd].

Ltac state_simpl :=
  cbn [session_state.backend_url session_state.top_k session_state.messages
       session_state.pending_input session_state.chat_input
       session_state.set_backend_url session_state.set_top_k
       session_state.set_messages session_state.set_pending_input
       session trace].

Lemma draws_only_run (m : M unit) s tr :
  draws_only m ->
  exists evs,
    m {| session := s; trace := tr |} =
      (Ok tt, {| session := s; trace := (tr ++ evs)%list |})
    /\ Forall is_draw evs.
Proof.
  intros H. destruct (H {| session := s; trace := tr |}) as (evs & E & F).
  exists evs. split; [exact E | exact F].
Qed.

Lemma posted_app tr1 tr2 : posted (tr1 ++ tr2) = (posted tr1 ++ posted tr2)%list.
Proof. unfold posted. apply flat_map_app. Qed.

Lemma posted_draws evs : Forall is_draw evs -> posted evs = [].
Proof.
  induction 1 as [| ev evs Hev _ IH]; [reflexivity |].
  destruct ev; cbn in *; try contradiction. exact IH.
Qed.

(** *** The follow-up buttons *)

Lemma for_enumerate_followups env ncols fus :
  forall i s tr,
  exists evs,
    for_enumerate i fus (render_followup env ncols) {| session := s; trace := tr |} =
      (Ok tt,
       {| session := match selected env i fus with
                     | Some fu => session_state.set_pending_input (Some fu) s
                     | None => s
                     end;
          trace := (tr ++ evs)%list |})
    /\ Forall is_draw evs.
Proof.
  induction fus as [| fu rest IH]; intros i s tr.
  - exists []. cbn. rewrite app_nil_r. split; [reflexivity | constructor].
  - cbn [for_enumerate selected]. unfold render_followup at 1. run_monad.
    destruct (st.button (front env) fu (fu_key i)) eqn:Hb; cbn [session trace].
    + destruct (IH (S i) (session_state.set_pending_input (Some fu) s)
                  (tr ++ [Draw st.Main (st.Button fu (fu_key i) (i mod ncols))])%list)
        as (evs & E & F).
      exists (Draw st.Main (st.Button fu (fu_key i) (i mod ncols)) :: evs).
      split; [| constructor; [exact I | exact F]].
      rewrite E. rewrite <- app_assoc. cbn [app].
      destruct (selected env (S i) rest); reflexivity.
    + destruct (IH (S i) s
                  (tr ++ [Draw st.Main (st.Button fu (fu_key i) (i mod ncols))])%list)
        as (evs & E & F).
      exists (Draw st.Main (st.Button fu (fu_key i) (i mod ncols)) :: evs).
      split; [| constructor; [exact I | exact F]].
      rewrite E. rewrite <- app_assoc. cbn [app].
      destruct (selected env (S i) rest); reflexivity.
Qed.

Lemma _render_followups_run env fus s tr :
  exists evs,
    _render_followups env fus {| session := s; trace := tr |} =
      (Ok tt, {| session := after_followups env fus s; trace := (tr ++ evs)%list |})
    /\ Forall is_draw evs.
Proof.
  unfold after_followups.
  destruct fus as [| fu rest].
  - exists []. cbn. rewrite app_nil_r. split; [reflexivity | constructor].
  - cbn [_render_followups]. generalize (fu :: rest). intros fus. run_monad.
    destruct (for_enumerate_followups env (Nat.min 3 (List.length fus)) fus 0%nat s
                ((tr ++ [Draw st.Main (st.Caption "Try one of these:")]) ++
                 [Draw st.Main (st.Columns (Nat.min 3 (List.length fus)))])%list)
      as (evs & E & F).
    eexists. rewrite E. rewrite <- !app_assoc. cbn [app].
    split; [reflexivity |].
    repeat constructor. exact F.
Qed.

(** *** The two HTTP operations *)

Lemma _healthcheck_run env url s tr :
  exists hs,
    _healthcheck env url {| session := s; trace := tr |} =
      (Ok hs, {| session := s; trace := (tr ++ [HttpGet (url ++ "/health") 5])%list |}).
Proof.
  unfold _healthcheck. run_monad.
  destruct (requests.get (net env) (url ++ "/health") 5) as [resp | e].
  - destruct (requests.ok resp).
    + destruct (requests.json resp) as [hs | e]; eexists; reflexivity.
    + eexists; reflexivity.
  - eexists; reflexivity.
Qed.

Lemma _post_query_run env url q k h s tr :
  _post_query env url q k h {| session := s; trace := tr |} =
    (fst (_post_query env url q k h {| session := s; trace := tr |}),
     {| session := s;
        trace := (tr ++ [HttpPost (url ++ "/query") (payload q k h) 120])%list |}).
Proof.
  unfold _post_query. run_monad.
  destruct (requests.post (net env) (url ++ "/query") (payload q k h) 120) as [resp | e];
    [| reflexivity].
  destruct (requests.raise_for_status resp); [| reflexivity].
  destruct (requests.json resp); reflexivity.
Qed.

Lemma _post_query_result_any_world env url q k h w1 w2 :
  fst (_post_query env url q k h w1) = fst (_post_query env url q k h w2).
Proof.
  unfold _post_query. run_monad.
  destruct (requests.post (net env) (url ++ "/query") (payload q k h) 120) as [resp | e];
    [| reflexivity].
  destruct (requests.raise_for_status resp); [| reflexivity].
  destruct (requests.json resp); reflexivity.
Qed.

(** *** One exchange *)

Lemma _send_and_render_failed env q s tr ms k e w0 :
  session_state.messages s = Some ms ->
  session_state.top_k s = Some k ->
  fst (_post_query env (_get_backend_url env s) q k (ms ++ [user_message q])%list w0)
    = Raise e ->
  _send_and_render env q {| session := s; trace := tr |} =
    (Ok tt,
     {| session := session_state.set_messages (Some (ms ++ [user_message q])%list) s;
        trace := (tr ++ send_prelude q
                    ++ [ query_event env s q k (ms ++ [user_message q])%list;
                         Draw st.Placeholder
                           (st.Error ("Request failed: " ++ exn_str e)) ])%list |}).
Proof.
  intros Hms Hk Hpost.
  unfold _send_and_render. run_monad. rewrite Hms. cbn [session trace].
  state_simpl. rewrite Hk. state_simpl.
  rewrite _post_query_run.
  rewrite (_post_query_result_any_world _ _ _ _ _ _ w0).
  change (_get_backend_url env (session_state.set_messages _ s))
    with (_get_backend_url env s).
  rewrite Hpost. state_simpl.
  unfold send_prelude, query_event. rewrite <- !app_assoc. reflexivity.
Qed.

Lemma _send_and_render_answered env q s tr ms k resp w0 :
  session_state.messages s = Some ms ->
  session_state.top_k s = Some k ->
  fst (_post_query env (_get_backend_url env s) q k (ms ++ [user_message q])%list w0)
    = Ok resp ->
  let answer := Py.or_str (answer resp) "No answer returned." in
  exists evs,
    _send_and_render env q {| session := s; trace := tr |} =
      (Ok tt,
       {| session :=
            session_state.set_messages
              (Some (ms ++ [user_message q; assistant_message answer])%list)
              (after_followups env (Py.or_list (follow_ups resp)) s);
          trace := (tr ++ send_prelude q
                      ++ [ query_event env s q k (ms ++ [user_message q])%list;
                           Draw st.Placeholder (st.Markdown answer false) ]
                      ++ evs)%list |})
    /\ Forall is_draw evs.
Proof.
  intros Hms Hk Hpost ans.
  unfold _send_and_render. run_monad. rewrite Hms. cbn [session trace].
  state_simpl. rewrite Hk. state_simpl.
  rewrite _post_query_run.
  rewrite (_post_query_result_any_world _ _ _ _ _ _ w0).
  change (_get_backend_url env (session_state.set_messages _ s))
    with (_get_backend_url env s).
  rewrite Hpost. state_simpl. fold ans.
  match goal with
  | |- context [_render_citations ?cs {| session := ?s1; trace := ?t1 |}] =>
      destruct (draws_only_run (_render_citations cs) s1 t1
                  (_render_citations_draws cs)) as (evs1 & E1 & F1);
      rewrite E1
  end.
  match goal with
  | |- context [_render_followups env ?fus {| session := ?s1; trace := ?t1 |}] =>
      destruct (_render_followups_run env fus s1 t1) as (evs2 & E2 & F2);
      rewrite E2
  end.
  state_simpl.
  exists (Draw st.Main (st.Caption ("Answered in " ++ elapsed_1f env ++ "s"))
            :: evs1 ++ evs2)%list.
  split.
  - unfold after_followups.
    destruct (selected env 0 (Py.or_list (follow_ups resp))); state_simpl;
      unfold send_prelude, query_event;
      rewrite <- !app_assoc; cbn [app]; reflexivity.
  - constructor; [exact I |]. apply Forall_app; split; assumption.
Qed.

Lemma truthy_nonempty s : Py.truthy s = true <-> s <> "".
Proof.
  unfold Py.truthy. destruct (String.eqb_spec s ""); cbn; split;
    congruence.
Qed.

Lemma or_str_nonempty o d : d <> "" -> Py.or_str o d <> "".
Proof.
  intros Hd. unfold Py.or_str. destruct o as [s |]; [| exact Hd].
  destruct (Py.truthy s) eqn:Hs; [| exact Hd].
  now apply truthy_nonempty.
Qed.

Lemma valid_user_message q : q <> "" -> valid_message (user_message q).
Proof. intros Hq. split; [left; reflexivity | exact Hq]. Qed.

Lemma valid_assistant_message a : a <> "" -> valid_message (assistant_message a).
Proof. intros Ha. split; [right; reflexivity | exact Ha]. Qed.

Lemma selected_button env fus :
  forall i fu,
    selected env i fus = Some fu ->
    exists j, st.button (front env) fu (fu_key j) = true.
Proof.
  induction fus as [| x rest IH]; intros i fu; cbn [selected]; [discriminate |].
  destruct (selected env (S i) rest) as [y |] eqn:Hrest.
  - intros [= <-]. exact (IH _ _ Hrest).
  - destruct (st.button (front env) x (fu_key i)) eqn:Hb; [| discriminate].
    intros [= <-]. exists i. exact Hb.
Qed.

(** Both outcomes of an exchange at once. *)
Lemma _send_and_render_run env q s tr ms k :
  session_state.messages s = Some ms ->
  session_state.top_k s = Some k ->
  exists s' evs new,
    _send_and_render env q {| session := s; trace := tr |} =
      (Ok tt, {| session := s'; trace := (tr ++ evs)%list |})
    /\ posted evs = [payload q k (ms ++ [user_message q])%list]
    /\ session_state.messages s' = Some (ms ++ user_message q :: new)%list
    /\ Forall valid_message new
    /\ (session_state.pending_input s' = session_state.pending_input s
        \/ exists fu i,
             session_state.pending_input s' = Some fu
             /\ st.button (front env) fu (fu_key i) = true).
Proof.
  intros Hms Hk.
  destruct (fst (_post_query env (_get_backend_url env s) q k
                   (ms ++ [user_message q])%list {| session := s; trace := tr |}))
    as [resp | e] eqn:Hpost.
  - destruct (_send_and_render_answered env q s tr ms k resp _ Hms Hk Hpost)
      as (evs & E & F).
    do 3 eexists. split; [exact E |]. split; [| split; [| split]].
    + rewrite !posted_app. rewrite (posted_draws evs F). reflexivity.
    + reflexivity.
    + constructor; [| constructor].
      apply valid_assistant_message, or_str_nonempty. discriminate.
    + unfold after_followups.
      destruct (selected env 0 (Py.or_list (follow_ups resp))) as [fu |] eqn:Hsel;
        state_simpl; [| left; reflexivity].
      right. destruct (selected_button _ _ _ _ Hsel) as (i & Hi).
      exists fu, i. split; [reflexivity | exact Hi].
  - rewrite (_send_and_render_failed env q s tr ms k e _ Hms Hk Hpost).
    do 2 eexists. exists []. split; [reflexivity |]. split; [| split; [| split]].
    + rewrite !posted_app. reflexivity.
    + reflexivity.
    + constructor.
    + left. reflexivity.
Qed.

(** *** The input section *)

Lemma set_pending_input_None s :
  session_state.pending_input s = None ->
  session_state.set_pending_input None s = s.
Proof. destruct s; cbn. now intros ->. Qed.

Lemma input_typed env s tr u :
  st.chat_input (front env) = Some u ->
  Py.truthy u = true ->
  input env {| session := s; trace := tr |} =
    _send_and_render env u
      {| session := session_state.set_pending_input None s;
         trace := (tr ++ [chat_box])%list |}.
Proof.
  intros Hchat Hu. unfold input. run_monad.
  destruct (session_state.pending_input s) as [p |] eqn:Hp; run_monad;
    rewrite Hchat; cbn [Py.truthy_opt]; rewrite Hu;
    rewrite andb_false_r; cbn [negb]; state_simpl; rewrite Hu.
  - reflexivity.
  - now rewrite set_pending_input_None.
Qed.

Lemma input_prefilled env s tr p :
  session_state.pending_input s = Some p ->
  Py.truthy p = true ->
  Py.truthy_opt (st.chat_input (front env)) = false ->
  exists e,
    exn_kind e = StreamlitAPIException
    /\ input env {| session := s; trace := tr |} =
         (Raise e, {| session := session_state.set_pending_input None s;
                      trace := (tr ++ [chat_box])%list |}).
Proof.
  intros Hp Hpt Hchat. unfold input, set_widget_key_after_creation. run_monad.
  rewrite Hp. run_monad.
  rewrite Hpt, Hchat. cbn [andb negb]. state_simpl.
  eexists. split; [| reflexivity]. reflexivity.
Qed.

Lemma input_idle env s tr :
  Py.truthy_opt (session_state.pending_input s) = false ->
  Py.truthy_opt (st.chat_input (front env)) = false ->
  input env {| session := s; trace := tr |} =
    (Ok tt, {| session := session_state.set_pending_input None s;
               trace := (tr ++ [chat_box])%list |}).
Proof.
  intros Hp Hchat. unfold input. run_monad.
  destruct (session_state.pending_input s) as [p |] eqn:Hpend; run_monad.
  - cbn in Hp. rewrite Hp. cbn [andb]. state_simpl.
    destruct (st.chat_input (front env)) as [u |]; [| reflexivity].
    cbn in Hchat. rewrite Hchat. reflexivity.
  - cbn [Py.truthy String.eqb negb andb]. state_simpl.
    rewrite set_pending_input_None by assumption.
    destruct (st.chat_input (front env)) as [u |]; [| reflexivity].
    cbn in Hchat. rewrite Hchat. reflexivity.
Qed.

(** *** The pass up to the input section *)

Lemma chat_history_run s tr ms :
  session_state.messages s = Some ms ->
  exists evs,
    chat_history {| session := s; trace := tr |} =
      (Ok tt, {| session := s; trace := (tr ++ evs)%list |})
    /\ Forall is_draw evs.
Proof.
  intros Hms. unfold chat_history. run_monad. rewrite Hms.
  apply draws_only_run. apply draws_only_for_each. intros m w.
  exists [Draw st.Main (st.ChatMessage (role m));
          Draw st.Main (st.Markdown (content m) false)].
  split; [| repeat constructor].
  unfold add_trace. now rewrite <- app_assoc.
Qed.

Lemma app_run env s tr :
  match slider_answer env s with
  | Ok v =>
      exists evs,
        posted evs = []
        /\ app env {| session := s; trace := tr |} =
             input env {| session := ready env s v; trace := (tr ++ evs)%list |}
  | Raise e =>
      exists evs,
        posted evs = []
        /\ app env {| session := s; trace := tr |} =
             (Raise e, {| session := stopped env s; trace := (tr ++ evs)%list |})
  end.
Proof.
  unfold app, sidebar, session_state_init, slider_answer, slider_value.
  destruct s as [b k ms p c]. run_monad. state_simpl.
  destruct b as [b |]; state_simpl;
    (match goal with
     | |- context [_healthcheck env ?u {| session := ?s1; trace := ?t1 |}] =>
         destruct (_healthcheck_run env u s1 t1) as (hs & ->)
     end);
    (match goal with
     | |- context [health_badge ?h {| session := ?s1; trace := ?t1 |}] =>
         destruct (draws_only_run (health_badge h) s1 t1 (health_badge_draws h))
           as (evs1 & -> & F1)
     end);
    state_simpl;
    destruct k as [k |]; state_simpl;
    (match goal with
     | |- context [st.slider ?f ?l ?lo ?hi ?v] =>
         destruct (st.slider f l lo hi v) as [v' | e]
     end);
    state_simpl.
  all: try (eexists; split; [| rewrite <- !app_assoc; reflexivity];
            rewrite !posted_app, (posted_draws evs1 F1); reflexivity).
  all: destruct ms as [ms |]; state_simpl.
  all: match goal with
       | |- context [chat_history {| session := ?s1; trace := ?t1 |}] =>
           destruct (chat_history_run s1 t1 _ eq_refl) as (evs2 & -> & F2)
       end.
  all: eexists; split; [| rewrite <- !app_assoc; reflexivity].
  all: rewrite !posted_app, (posted_draws evs1 F1), (posted_draws evs2 F2);
    reflexivity.
Qed.

(** *** The input section and the whole pass, in general *)

Lemma input_run env s tr ms k :
  session_state.messages s = Some ms ->
  session_state.top_k s = Some k ->
  exists r s' evs new,
    input env {| session := s; trace := tr |} =
      (r, {| session := s'; trace := (tr ++ evs)%list |})
    /\ Forall (fun p => top_k p = k) (posted evs)
    /\ session_state.messages s' = Some (ms ++ new)%list
    /\ Forall valid_message new.
Proof.
  intros Hms Hk.
  destruct (Py.truthy_opt (st.chat_input (front env))) eqn:Hchat.
  - destruct (st.chat_input (front env)) as [u |] eqn:Hu; [| discriminate].
    cbn in Hchat. rewrite (input_typed env s tr u Hu Hchat).
    destruct (_send_and_render_run env u
                (session_state.set_pending_input None s) (tr ++ [chat_box])%list
                ms k Hms Hk) as (s' & evs & new & E & P & Hm & V & _).
    exists (Ok tt), s', (chat_box :: evs), (user_message u :: new).
    rewrite E, <- app_assoc. split; [reflexivity |].
    split; [| split; [exact Hm |]].
    + change (posted (chat_box :: evs)) with (posted evs). rewrite P.
      repeat constructor.
    + constructor; [| exact V].
      now apply valid_user_message, truthy_nonempty.
  - destruct (Py.truthy_opt (session_state.pending_input s)) eqn:Hpend.
    + destruct (session_state.pending_input s) as [p |] eqn:Hp; [| discriminate].
      cbn in Hpend.
      destruct (input_prefilled env s tr p Hp Hpend Hchat) as (e & _ & E).
      rewrite E.
      exists (Raise e), (session_state.set_pending_input None s), [chat_box], [].
      split; [reflexivity |]. split; [constructor |].
      split; [| constructor].
      state_simpl. now rewrite app_nil_r.
    + rewrite (input_idle env s tr Hpend Hchat).
      exists (Ok tt), (session_state.set_pending_input None s), [chat_box], [].
      split; [reflexivity |]. split; [constructor |].
      split; [| constructor].
      state_simpl. now rewrite app_nil_r.
Qed.

Lemma app_pass env s tr :
  exists r s' evs new,
    app env {| session := s; trace := tr |} =
      (r, {| session := s'; trace := (tr ++ evs)%list |})
    /\ (forall p, In p (posted evs) ->
          exists v, slider_answer env s = Ok v /\ top_k p = v)
    /\ messages_of {| session := s'; trace := (tr ++ evs)%list |} =
         (messages_of {| session := s; trace := tr |} ++ new)%list
    /\ Forall valid_message new.
Proof.
  pose proof (app_run env s tr) as Hrun.
  destruct (slider_answer env s) as [v | e].
  - destruct Hrun as (evs0 & P0 & ->).
    destruct (input_run env (ready env s v) (tr ++ evs0)%list
                (match session_state.messages s with Some ms => ms | None => [] end)
                v eq_refl eq_refl)
      as (r & s' & evs & new & E & P & Hm & V).
    exists r, s', (evs0 ++ evs)%list, new.
    rewrite E, app_assoc. split; [reflexivity |].
    split; [| split; [| exact V]].
    + intros p Hin. rewrite posted_app, P0 in Hin. cbn [app] in Hin.
      exists v. split; [reflexivity |].
      rewrite Forall_forall in P. now apply P.
    + unfold messages_of. cbn [session]. rewrite Hm. reflexivity.
  - destruct Hrun as (evs0 & P0 & ->).
    exists (Raise e), (stopped env s), evs0, [].
    split; [reflexivity |]. split; [| split; [| constructor]].
    + rewrite P0. intros p [].
    + unfold messages_of, stopped. cbn. now rewrite app_nil_r.
Qed.


(** *** Selecting one follow-up *)


(** *** Error statuses, passes without a submission, the stored [top_k] *)

Lemma requests_ok_false {A} (resp : requests.Response A) :
  requests.ok resp = false <-> 400 <= requests.status_code resp < 600.
Proof.
  unfold requests.ok, requests.raise_for_status.
  destruct ((400 <=? requests.status_code resp) && (requests.status_code resp <? 500))
    eqn:H4.
  - apply andb_true_iff in H4. split; [lia | reflexivity].
  - destruct ((500 <=? requests.status_code resp) && (requests.status_code resp <? 600))
      eqn:H5.
    + apply andb_true_iff in H5. split; [lia | reflexivity].
    + apply andb_false_iff in H4, H5. split; [discriminate | lia].
Qed.

Lemma input_without_submission env s tr :
  Py.truthy_opt (st.chat_input (front env)) = false ->
  exists r,
    input env {| session := s; trace := tr |} =
      (r, {| session := session_state.set_pending_input None s;
             trace := (tr ++ [chat_box])%list |}).
Proof.
  intros Hchat.
  destruct (Py.truthy_opt (session_state.pending_input s)) eqn:Hpend.
  - destruct (session_state.pending_input s) as [p |] eqn:Hp; [| discriminate].
    cbn in Hpend.
    destruct (input_prefilled env s tr p Hp Hpend Hchat) as (e & _ & E).
    exists (Raise e). exact E.
  - exists (Ok tt). now apply input_idle.
Qed.


Lemma input_keeps_top_k env s tr ms k :
  session_state.messages s = Some ms ->
  session_state.top_k s = Some k ->
  session_state.top_k (session (snd (input env {| session := s; trace := tr |})))
    = Some k.
Proof.
  intros Hms Hk.
  destruct (Py.truthy_opt (st.chat_input (front env))) eqn:Hchat.
  - destruct (st.chat_input (front env)) as [u |] eqn:Hu; [| discriminate].
    cbn in Hchat. rewrite (input_typed env s tr u Hu Hchat).
    set (s0 := session_state.set_pending_input None s).
    destruct (fst (_post_query env (_get_backend_url env s0) u k
                     (ms ++ [user_message u])%list
                     {| session := s0; trace := (tr ++ [chat_box])%list |}))
      as [resp | e] eqn:Hpost.
    + destruct (_send_and_render_answered env u s0 (tr ++ [chat_box])%list ms k resp _
                  Hms Hk Hpost) as (evs & E & _).
      rewrite E. cbn [snd session]. unfold after_followups.
      destruct (selected env 0 (Py.or_list (follow_ups resp))); exact Hk.
    + rewrite (_send_and_render_failed env u s0 (tr ++ [chat_box])%list ms k e _
                 Hms Hk Hpost).
      exact Hk.
  - destruct (input_without_submission env s tr Hchat) as (r & E).
    rewrite E. exact Hk.
Qed.

Lemma app_top_k env s tr :
  session_state.top_k (session (snd (app env {| session := s; trace := tr |})))
  = Some (match slider_answer env s with
          | Ok v => v
          | Raise _ => slider_value s
          end).
Proof.
  pose proof (app_run env s tr) as Hrun.
  destruct (slider_answer env s) as [v | e].
  - destruct Hrun as (evs0 & _ & ->).
    exact (input_keeps_top_k env (ready env s v) _ _ v eq_refl eq_refl).
  - destruct Hrun as (evs0 & _ & ->). reflexivity.
Qed.

(** ** The query payload *)

Lemma slice_last_six {A} (l : list A) :
  (6 < List.length l)%nat ->
  exists older,
    l = (older ++ Py.slice_from (-6) l)%list
    /\ List.length (Py.slice_from (-6) l) = 6%nat.
Proof.
  intros Hlen. unfold Py.slice_from.
  replace (-6 <? 0) with true by reflexivity.
  rewrite Z.max_l by lia.
  exists (firstn (Z.to_nat (Z.of_nat (List.length l) + -6)) l). split.
  - now rewrite firstn_skipn.
  - rewrite length_skipn. lia.
Qed.

(** C1. A call of [_post_query] with a history of more than 6 entries logs
    one request, whose [history] field is the last 6 entries of that
    history in their order: the history is [older ++ recent] with [recent]
    of length 6, and [recent] is what is sent. *)
Theorem post_query_sends_last_six env url q k h s tr :
  (6 < List.length h)%nat ->
  exists older recent,
    h = (older ++ recent)%list
    /\ List.length recent = 6%nat
    /\ snd (_post_query env url q k h {| session := s; trace := tr |}) =
         {| session := s;
            trace := (tr ++ [HttpPost (url ++ "/query")
                               {| query := q; top_k := k; history := Some recent |}
                               120])%list |}.
Proof.
  intros Hlen.
  destruct (slice_last_six h Hlen) as (older & Hsplit & Hsix).
  exists older, (Py.slice_from (-6) h).
  split; [exact Hsplit |]. split; [exact Hsix |].
  rewrite _post_query_run. cbn [snd]. unfold payload.
  destruct h as [| m h']; [cbn in Hlen; lia | reflexivity].
Qed.

Lemma post_query_sends_last_six_witness :
  exists older recent,
    Demo.seven = (older ++ recent)%list
    /\ List.length recent = 6%nat
    /\ snd (_post_query (Demo.env Demo.idle Demo.slow_backend)
              "https://backend" "q4" 5 Demo.seven Demo.fresh) =
         {| session := session_state.empty;
            trace := ([] ++ [HttpPost ("https://backend" ++ "/query")
                               {| query := "q4"; top_k := 5; history := Some recent |}
                               120])%list |}.
Proof.
  apply (post_query_sends_last_six
           (Demo.env Demo.idle Demo.slow_backend)
           "https://backend" "q4" 5 Demo.seven session_state.empty []).
  cbn. lia.
Defined.

(** C2. A call of [_post_query] with an empty history logs one request
    whose [history] field is null ([None]), which is not the empty list. *)
Theorem post_query_empty_history_is_null env url q k s tr :
  snd (_post_query env url q k [] {| session := s; trace := tr |}) =
    {| session := s;
       trace := (tr ++ [HttpPost (url ++ "/query")
                          {| query := q; top_k := k; history := None |} 120])%list |}
  /\ history (payload q k []) = None
  /\ history (payload q k []) <> Some [].
Proof.
  split; [| split].
  - rewrite _post_query_run. reflexivity.
  - reflexivity.
  - discriminate.
Qed.

(** ** The health check *)

(** C4, as stated, fails on a response whose status is not a success and
    not an error status either: [/health] answers 300 with a body, and
    [_healthcheck] returns that body, not an [error] with detail
    [HTTP 300]. *)
Lemma healthcheck_returns_body_on_status_300 :
  let env := Demo.env Demo.idle (Demo.health_with_status 300 "Multiple Choices") in
  (exists resp,
      requests.get (net env) ("https://backend" ++ "/health") 5 = Ok resp
      /\ requests.status_code resp = 300
      /\ ~ (200 <= requests.status_code resp < 300))
  /\ fst (_healthcheck env "https://backend" Demo.fresh)
     = Ok {| status := Some "ok"; detail := None |}
  /\ fst (_healthcheck env "https://backend" Demo.fresh)
     <> Ok {| status := Some "error"; detail := Some "HTTP 300" |}.
Proof.
  cbv zeta. split; [| split; [reflexivity | discriminate]].
  eexists. split; [reflexivity |]. cbn. split; [reflexivity | lia].
Qed.

(** C4, amended.  [_healthcheck] always returns a health status and never
    raises.  When the status of the response is a client or server error
    (400 to 599) it returns the status [error] with detail [HTTP <code>],
    so [HTTP 503] for a 503; when [requests.get] raises, or decoding the
    body raises, it returns [error] with the message of the exception as
    detail; the body of any other response is returned as decoded. *)
Theorem healthcheck_total env url w :
  (exists hs, fst (_healthcheck env url w) = Ok hs)
  /\ (forall resp,
         requests.get (net env) (url ++ "/health") 5 = Ok resp ->
         400 <= requests.status_code resp < 600 ->
         fst (_healthcheck env url w) =
           Ok {| status := Some "error";
                 detail := Some ("HTTP " ++ Py.str_int (requests.status_code resp)) |})
  /\ (forall resp,
         requests.get (net env) (url ++ "/health") 5 = Ok resp ->
         requests.status_code resp = 503 ->
         fst (_healthcheck env url w) =
           Ok {| status := Some "error"; detail := Some "HTTP 503" |})
  /\ (forall e,
         requests.get (net env) (url ++ "/health") 5 = Raise e ->
         fst (_healthcheck env url w) =
           Ok {| status := Some "error"; detail := Some (exn_str e) |})
  /\ (forall resp e,
         requests.get (net env) (url ++ "/health") 5 = Ok resp ->
         ~ (400 <= requests.status_code resp < 600) ->
         requests.json resp = Raise e ->
         fst (_healthcheck env url w) =
           Ok {| status := Some "error"; detail := Some (exn_str e) |})
  /\ (forall resp hs,
         requests.get (net env) (url ++ "/health") 5 = Ok resp ->
         ~ (400 <= requests.status_code resp < 600) ->
         requests.json resp = Ok hs ->
         fst (_healthcheck env url w) = Ok hs).
Proof.
  unfold _healthcheck, error_status. run_monad.
  destruct (requests.get (net env) (url ++ "/health") 5) as [resp | e0] eqn:Hget.
  - destruct (requests.ok resp) eqn:Hok.
    + assert (Hcode : ~ (400 <= requests.status_code resp < 600)).
      { intros H. apply requests_ok_false in H. congruence. }
      destruct (requests.json resp) as [hs | e1] eqn:Hjson; cbn [fst];
        (split; [eexists; reflexivity |]);
        repeat split; intros; try congruence;
        match goal with
        | H : Ok resp = Ok ?r |- _ => injection H as <-
        end; try congruence; exfalso; lia.
    + apply requests_ok_false in Hok. cbn [fst].
      split; [eexists; reflexivity |].
      repeat split; intros;
        match goal with
        | H : Ok resp = Ok ?r |- _ => injection H as <-
        | _ => idtac
        end; try congruence; try contradiction.
      match goal with
      | H : requests.status_code resp = 503 |- _ => rewrite H; reflexivity
      end.
  - cbn [fst]. split; [eexists; reflexivity |].
    repeat split; intros; congruence.
Qed.

Lemma healthcheck_total_witness :
  fst (_healthcheck (Demo.env Demo.idle (Demo.unhealthy 503 "Service Unavailable"))
         "https://backend" Demo.fresh) =
    Ok {| status := Some "error"; detail := Some "HTTP 503" |}.
Proof.
  destruct (healthcheck_total
              (Demo.env Demo.idle (Demo.unhealthy 503 "Service Unavailable"))
              "https://backend" Demo.fresh) as (_ & _ & H503 & _).
  apply (H503 {| requests.status_code := 503;
                 requests.reason := "Service Unavailable";
                 requests.url := "https://backend/health";
                 requests.json := Raise (Exn JSONDecodeError
                                           "Expecting value: line 1 column 1 (char 0)") |});
    reflexivity.
Defined.

(** ** One exchange *)

(** C3. When the backend call of an exchange raises [e], [_send_and_render]
    returns normally, draws the error [Request failed: <message of e>] in
    the placeholder, and leaves the history one entry longer than it was:
    the user message, and no assistant message. *)
Theorem send_and_render_on_failure env q s tr ms k e w0 :
  session_state.messages s = Some ms ->
  session_state.top_k s = Some k ->
  fst (_post_query env (_get_backend_url env s) q k (ms ++ [user_message q])%list w0)
    = Raise e ->
  let out := _send_and_render env q {| session := s; trace := tr |} in
  fst out = Ok tt
  /\ In (Draw st.Placeholder (st.Error ("Request failed: " ++ exn_str e)))
        (trace (snd out))
  /\ session_state.messages (session (snd out)) = Some (ms ++ [user_message q])%list
  /\ List.length (messages_of (snd out)) = S (List.length ms).
Proof.
  intros Hms Hk Hpost out. subst out.
  rewrite (_send_and_render_failed env q s tr ms k e w0 Hms Hk Hpost).
  cbn [fst snd session trace]. unfold messages_of. state_simpl.
  repeat split.
  - rewrite !in_app_iff. right. right. right. left. reflexivity.
  - rewrite length_app. cbn. lia.
Qed.

Lemma send_and_render_on_failure_witness :
  let out :=
    _send_and_render (Demo.env Demo.idle Demo.slow_backend) "What is product X?"
      {| session := Demo.ongoing [] None; trace := [] |} in
  fst out = Ok tt
  /\ In (Draw st.Placeholder
           (st.Error ("Request failed: " ++ exn_str Demo.timed_out)))
        (trace (snd out))
  /\ session_state.messages (session (snd out)) =
       Some ([] ++ [user_message "What is product X?"])%list
  /\ List.length (messages_of (snd out)) = S (List.length (@nil Message)).
Proof.
  apply (send_and_render_on_failure
           (Demo.env Demo.idle Demo.slow_backend) "What is product X?"
           (Demo.ongoing [] None) [] [] 5 Demo.timed_out Demo.fresh);
    reflexivity.
Defined.

(** C6. When the backend call of an exchange returns a response whose
    [answer] is missing or empty, the text drawn as the answer is
    [No answer returned.] and the message appended to the history, after
    the user message, has the role [assistant] and that same text as
    content. *)
Theorem missing_answer_falls_back env q s tr ms k resp w0 :
  session_state.messages s = Some ms ->
  session_state.top_k s = Some k ->
  fst (_post_query env (_get_backend_url env s) q k (ms ++ [user_message q])%list w0)
    = Ok resp ->
  answer resp = None \/ answer resp = Some "" ->
  let out := _send_and_render env q {| session := s; trace := tr |} in
  fst out = Ok tt
  /\ In (Draw st.Placeholder (st.Markdown "No answer returned." false))
        (trace (snd out))
  /\ session_state.messages (session (snd out)) =
       Some (ms ++ [ {| role := "user"; content := q |};
                     {| role := "assistant"; content := "No answer returned." |} ])%list.
Proof.
  intros Hms Hk Hpost Hmissing out. subst out.
  destruct (_send_and_render_answered env q s tr ms k resp w0 Hms Hk Hpost)
    as (evs & E & _).
  rewrite E. cbn [fst snd session trace].
  assert (Hfb : Py.or_str (answer resp) "No answer returned." = "No answer returned.")
    by (destruct Hmissing as [-> | ->]; reflexivity).
  rewrite Hfb. state_simpl.
  repeat split.
  rewrite !in_app_iff. right. right. left. right. left. reflexivity.
Qed.

Lemma missing_answer_falls_back_witness :
  let out :=
    _send_and_render
      (Demo.env Demo.idle (Demo.backend 200 "OK" (Ok Demo.no_answer)))
      "What is product X?"
      {| session := Demo.ongoing [] None; trace := [] |} in
  fst out = Ok tt
  /\ In (Draw st.Placeholder (st.Markdown "No answer returned." false))
        (trace (snd out))
  /\ session_state.messages (session (snd out)) =
       Some ([] ++ [ {| role := "user"; content := "What is product X?" |};
                     {| role := "assistant"; content := "No answer returned." |} ])%list.
Proof.
  apply (missing_answer_falls_back
           (Demo.env Demo.idle (Demo.backend 200 "OK" (Ok Demo.no_answer)))
           "What is product X?"
           (Demo.ongoing [] None) [] [] 5 Demo.no_answer Demo.fresh);
    try reflexivity.
  left. reflexivity.
Defined.

(** ** Failures of the query operation *)

(** C7, as stated, fails on a response whose status is neither 2xx nor an
    error status: the backend answers 300 with a decodable body, and
    [_post_query] returns that body normally. *)
Lemma post_query_returns_on_status_300 :
  let env := Demo.env Demo.idle
               (Demo.backend 300 "Multiple Choices" (Ok Demo.about_x)) in
  (exists resp,
      requests.post (net env) ("https://backend" ++ "/query")
        (payload "What is product X?" 5 []) 120 = Ok resp
      /\ requests.status_code resp = 300
      /\ ~ (200 <= requests.status_code resp < 300))
  /\ fst (_post_query env "https://backend" "What is product X?" 5 [] Demo.fresh)
     = Ok Demo.about_x.
Proof.
  cbv zeta. split; [| reflexivity].
  eexists. split; [reflexivity |]. cbn. split; [reflexivity | lia].
Qed.

(** C7, amended.  [_post_query] raises whenever the call itself raises (a
    time-out, a network failure), with that very exception, and whenever
    the status of the response is a client or server error (400 to 599),
    with an [HTTPError]; a body that cannot be decoded raises too.  It
    returns a value only when the call returned a response whose status is
    not an error status and whose body decodes to that value. *)
Theorem post_query_propagates_failures env url q k h w :
  (forall e,
      requests.post (net env) (url ++ "/query") (payload q k h) 120 = Raise e ->
      fst (_post_query env url q k h w) = Raise e)
  /\ (forall resp,
         requests.post (net env) (url ++ "/query") (payload q k h) 120 = Ok resp ->
         400 <= requests.status_code resp < 600 ->
         exists e, fst (_post_query env url q k h w) = Raise e
                   /\ exn_kind e = HTTPError)
  /\ (forall resp e,
         requests.post (net env) (url ++ "/query") (payload q k h) 120 = Ok resp ->
         requests.json resp = Raise e ->
         exists e', fst (_post_query env url q k h w) = Raise e')
  /\ (forall v,
         fst (_post_query env url q k h w) = Ok v ->
         exists resp,
           requests.post (net env) (url ++ "/query") (payload q k h) 120 = Ok resp
           /\ ~ (400 <= requests.status_code resp < 600)
           /\ requests.json resp = Ok v).
Proof.
  unfold _post_query. run_monad.
  destruct (requests.post (net env) (url ++ "/query") (payload q k h) 120)
    as [resp | e0] eqn:Hpost; cbn [fst].
  - unfold requests.raise_for_status.
    destruct ((400 <=? requests.status_code resp) && (requests.status_code resp <? 500))
      eqn:H4; cbn [fst].
    { repeat split; intros; try congruence; try (eexists; split; reflexivity);
        try (eexists; reflexivity). }
    destruct ((500 <=? requests.status_code resp) && (requests.status_code resp <? 600))
      eqn:H5; cbn [fst].
    { repeat split; intros; try congruence; try (eexists; split; reflexivity);
        try (eexists; reflexivity). }
    assert (Hcode : ~ (400 <= requests.status_code resp < 600)).
    { apply andb_false_iff in H4, H5. lia. }
    repeat split; intros; try congruence.
    + match goal with H : Ok resp = Ok ?r |- _ => injection H as <- end.
      match goal with H : requests.json resp = Raise _ |- _ => rewrite H end.
      eexists; reflexivity.
    + exists resp. repeat split; try assumption.
  - repeat split; intros; congruence.
Qed.

Lemma post_query_propagates_failures_witness :
  fst (_post_query (Demo.env Demo.idle Demo.slow_backend)
         "https://backend" "What is product X?" 5 [] Demo.fresh)
  = Raise Demo.timed_out.
Proof.
  apply (proj1 (post_query_propagates_failures
                  (Demo.env Demo.idle Demo.slow_backend)
                  "https://backend" "What is product X?" 5 [] Demo.fresh)).
  reflexivity.
Defined.

(** ** The result-count parameter *)

(** C8, as stated, fails when the session state holds a [top_k] outside
    the bounds: nothing in the script brings it back, the slider widens
    its range to hold it and returns it, and the request carries it.
    With 100 stored and the slider left alone, the query sent carries
    [top_k] 100. *)
Lemma stored_top_k_of_100_is_sent :
  let env := Demo.env (Demo.typing "What is product X?")
               (Demo.backend 200 "OK" (Ok Demo.about_x)) in
  let w := {| session := session_state.set_top_k (Some 100) (Demo.ongoing [] None);
              trace := [] |} in
  slider_in_range env
  /\ posted (trace (snd (app env w)))
     = [ {| query := "What is product X?";
            top_k := 100;
            history := Some [ {| role := "user"; content := "What is product X?" |} ] |} ]
  /\ ~ (1 <= 100 <= 20).
Proof.
  cbv zeta. split; [| split; [vm_compute; reflexivity | lia]].
  intros label lo hi value v Hlohi. cbn. intros [= <-]. lia.
Qed.

(** C8, amended.  On every pass, whatever the session state was, a request
    that is sent carries as [top_k] the value the slider returned on that
    pass, the slider having been created with bounds 1 and 20 and with
    the stored [top_k], or with 5 when none was stored.  So over a whole
    session that starts with no [top_k] stored, or with one between 1 and
    20, every request sent carries a [top_k] between 1 and 20, the slider
    returning a value of its range; a stored [top_k] outside the bounds
    is not brought back within them. *)
Theorem top_k_sent_within_bounds :
  (forall env s tr,
      exists evs,
        trace (snd (app env {| session := s; trace := tr |})) = (tr ++ evs)%list
        /\ forall p, In p (posted evs) ->
             exists v,
               st.slider (front env) "Top K" 1 20
                 (match session_state.top_k s with Some k => k | None => 5 end)
               = Ok v
               /\ top_k p = v)
  /\ (forall envs w,
         Forall slider_in_range envs ->
         match session_state.top_k (session w) with
         | Some k => 1 <= k <= 20
         | None => True
         end ->
         exists evs,
           trace (run envs w) = (trace w ++ evs)%list
           /\ Forall (fun p => 1 <= top_k p <= 20) (posted evs)).
Proof.
  split.
  - intros env s tr.
    destruct (app_pass env s tr) as (r & s' & evs & new & E & P & _).
    exists evs. rewrite E. split; [reflexivity | exact P].
  - induction envs as [| env envs IH]; intros [s tr] Hb Hk.
    + exists []. cbn. rewrite app_nil_r. split; [reflexivity | constructor].
    + inversion Hb as [| ? ? Henv Henvs]; subst.
      assert (Hvalue : 1 <= slider_value s <= 20).
      { unfold slider_value. cbn [session] in Hk.
        destruct (session_state.top_k s); lia. }
      assert (Hanswer : forall v, slider_answer env s = Ok v -> 1 <= v <= 20).
      { intros v Hv.
        pose proof (Henv "Top K" 1 20 (slider_value s) v ltac:(lia) Hv). lia. }
      pose proof (app_top_k env s tr) as Htop.
      destruct (app_pass env s tr) as (r & s' & evs & new & E & P & _).
      cbn [run]. rewrite E in Htop |- *. cbn [snd session] in Htop |- *.
      destruct (IH {| session := s'; trace := (tr ++ evs)%list |} Henvs)
        as (evs' & T & R).
      { cbn [session]. rewrite Htop.
        destruct (slider_answer env s) as [v | e]; [now apply Hanswer | exact Hvalue]. }
      exists (evs ++ evs')%list. rewrite T. cbn [trace].
      split; [now rewrite app_assoc |].
      rewrite posted_app. apply Forall_app. split; [| exact R].
      apply Forall_forall. intros p Hin.
      destruct (P p Hin) as (v & Hv & ->). now apply Hanswer.
Qed.

Lemma top_k_sent_within_bounds_witness :
  exists evs,
    trace (run [Demo.env (Demo.typing "What is product X?")
                  (Demo.backend 200 "OK" (Ok Demo.about_x));
                Demo.env (Demo.typing "How much does X cost?")
                  (Demo.backend 200 "OK" (Ok Demo.no_answer))]
             Demo.fresh)
    = ([] ++ evs)%list
    /\ Forall (fun p => 1 <= top_k p <= 20) (posted evs).
Proof.
  apply (proj2 top_k_sent_within_bounds
           [Demo.env (Demo.typing "What is product X?")
              (Demo.backend 200 "OK" (Ok Demo.about_x));
            Demo.env (Demo.typing "How much does X cost?")
              (Demo.backend 200 "OK" (Ok Demo.no_answer))]
           Demo.fresh).
  - constructor; [| constructor; [| constructor]];
      intros label lo hi value v Hlohi; cbn; intros [= <-]; lia.
  - exact I.
Defined.

(** ** The history *)

(** C10. Over a whole session, from any state, the history only grows,
    and every message appended to it has the role [user] or [assistant]
    and a content that is not the empty string. *)
Theorem appended_messages_are_valid envs w :
  exists new,
    messages_of (run envs w) = (messages_of w ++ new)%list
    /\ Forall valid_message new.
Proof.
  revert w. induction envs as [| env envs IH]; intros [s tr].
  - exists []. cbn [run]. rewrite app_nil_r. split; [reflexivity | constructor].
  - destruct (app_pass env s tr) as (r & s' & evs & new & E & _ & Hm & V).
    cbn [run]. rewrite E. cbn [snd].
    destruct (IH {| session := s'; trace := (tr ++ evs)%list |}) as (new' & Hm' & V').
    exists (new ++ new')%list. rewrite Hm', Hm, app_assoc.
    split; [reflexivity |]. apply Forall_app. split; assumption.
Qed.

(** ** Pending follow-ups and typed input *)

(** C9. When the input section runs with a follow-up pending and a
    non-empty text typed in the chat box, it does what [_send_and_render]
    does with the typed text from the session state without the pending
    entry: the pass is the same as if nothing had been pending.  The one
    request sent carries the typed text, the message appended first is the
    user message of the typed text, and what is pending afterwards is
    nothing, or a follow-up whose button was selected during this pass. *)
Theorem typed_input_discards_pending env s tr p u :
  session_state.pending_input s = Some p ->
  st.chat_input (front env) = Some u ->
  u <> "" ->
  let out := input env {| session := s; trace := tr |} in
  out = _send_and_render env u
          {| session := session_state.set_pending_input None s;
             trace := (tr ++ [chat_box])%list |}
  /\ out = input env {| session := session_state.set_pending_input None s;
                        trace := tr |}
  /\ (forall ms k,
        session_state.messages s = Some ms ->
        session_state.top_k s = Some k ->
        exists evs new,
          trace (snd out) = (tr ++ evs)%list
          /\ posted evs = [payload u k (ms ++ [user_message u])%list]
          /\ session_state.messages (session (snd out))
             = Some (ms ++ user_message u :: new)%list
          /\ (session_state.pending_input (session (snd out)) = None
              \/ exists fu i,
                   session_state.pending_input (session (snd out)) = Some fu
                   /\ st.button (front env) fu (fu_key i) = true)).
Proof.
  intros Hp Hchat Hu out. subst out.
  apply truthy_nonempty in Hu.
  rewrite (input_typed env s tr u Hchat Hu).
  split; [reflexivity |]. split.
  - rewrite (input_typed env _ tr u Hchat Hu). reflexivity.
  - intros ms k Hms Hk.
    destruct (_send_and_render_run env u
                (session_state.set_pending_input None s) (tr ++ [chat_box])%list
                ms k Hms Hk) as (s' & evs & new & E & P & Hm & _ & Hpend).
    rewrite E. cbn [snd session trace].
    exists (chat_box :: evs), new. rewrite <- app_assoc.
    split; [reflexivity |]. split; [exact P |]. split; [exact Hm |].
    destruct Hpend as [Hsame | Hsel]; [left; exact Hsame | right; exact Hsel].
Qed.

Lemma typed_input_discards_pending_witness :
  let env := Demo.env (Demo.typing "What is product X?")
               (Demo.backend 200 "OK" (Ok Demo.about_x)) in
  let s := Demo.ongoing [] (Some "How much does X cost?") in
  let out := input env {| session := s; trace := [] |} in
  out = input env {| session := session_state.set_pending_input None s; trace := [] |}
  /\ session_state.pending_input (session (snd out)) = None
  /\ posted (trace (snd out))
     = [payload "What is product X?" 5 [user_message "What is product X?"]].
Proof.
  cbv zeta.
  destruct (typed_input_discards_pending
              (Demo.env (Demo.typing "What is product X?")
                 (Demo.backend 200 "OK" (Ok Demo.about_x)))
              (Demo.ongoing [] (Some "How much does X cost?")) []
              "How much does X cost?" "What is product X?"
              eq_refl eq_refl ltac:(discriminate)) as (_ & Hsame & _).
  split; [exact Hsame |]. split; reflexivity.
Defined.



(** * Further properties of the script *)

(** ** The base URL *)

Lemma rstrip_no_trailing c s : ends_with c (Py.rstrip c s) = false.
Proof.
  induction s as [| a r IH]; [reflexivity |].
  cbn [Py.rstrip]. destruct (Py.rstrip c r) as [| b r'] eqn:Hr.
  - destruct (Ascii.eqb a c) eqn:Hac; cbn; [reflexivity | exact Hac].
  - exact IH.
Qed.

Lemma rstrip_removes_only_tail c s :
  exists n, s = Py.rstrip c s ++ repeat_char c n.
Proof.
  induction s as [| a r (n & IH)]; [exists 0%nat; reflexivity |].
  cbn [Py.rstrip]. destruct (Py.rstrip c r) as [| b r'] eqn:Hr.
  - cbn [append] in IH. destruct (Ascii.eqb_spec a c) as [-> | Hne].
    + exists (S n). cbn. now rewrite <- IH.
    + exists n. cbn. now rewrite <- IH.
  - exists n. cbn [append] in *. congruence.
Qed.

Lemma rstrip_fixed c s : ends_with c s = false -> Py.rstrip c s = s.
Proof.
  induction s as [| a r IH]; [reflexivity |].
  intros H. cbn [Py.rstrip]. destruct r as [| b r'].
  - cbn in *. now rewrite H.
  - rewrite IH by exact H. reflexivity.
Qed.

Lemma rstrip_idempotent c s : Py.rstrip c (Py.rstrip c s) = Py.rstrip c s.
Proof. apply rstrip_fixed, rstrip_no_trailing. Qed.

(** X1. The base URL [_get_backend_url] returns never ends with a slash.
    It is the URL stored in the session state, or the default when none
    or an empty one is stored, with nothing but trailing slashes taken
    off; with none or an empty one stored it is the default itself. *)
Theorem backend_url_is_normalised env s :
  ends_with "/" (_get_backend_url env s) = false
  /\ (exists n,
         Py.or_str (session_state.backend_url s) (DEFAULT_BACKEND_URL env)
         = _get_backend_url env s ++ repeat_char "/" n)
  /\ (session_state.backend_url s = None \/ session_state.backend_url s = Some "" ->
      _get_backend_url env s = DEFAULT_BACKEND_URL env).
Proof.
  unfold _get_backend_url. split; [apply rstrip_no_trailing |].
  split; [apply rstrip_removes_only_tail |].
  intros [-> | ->]; cbn [Py.or_str Py.truthy String.eqb negb];
    unfold DEFAULT_BACKEND_URL; apply rstrip_idempotent.
Qed.

Lemma backend_url_is_normalised_witness :
  _get_backend_url (Demo.env Demo.idle Demo.slow_backend) session_state.empty
  = DEFAULT_BACKEND_URL (Demo.env Demo.idle Demo.slow_backend).
Proof.
  apply (proj2 (proj2 (backend_url_is_normalised
                         (Demo.env Demo.idle Demo.slow_backend)
                         session_state.empty))).
  left. reflexivity.
Defined.

(** ** The history sent *)

Lemma slice_from_short {A} (l : list A) :
  (List.length l <= 6)%nat -> Py.slice_from (-6) l = l.
Proof.
  intros Hlen. unfold Py.slice_from.
  replace (-6 <? 0) with true by reflexivity.
  rewrite Z.max_r by lia. reflexivity.
Qed.

Lemma slice_from_suffix {A} (l : list A) :
  exists older, l = (older ++ Py.slice_from (-6) l)%list.
Proof.
  unfold Py.slice_from. eexists. symmetry. apply firstn_skipn.
Qed.

Lemma slice_from_length {A} (l : list A) :
  List.length (Py.slice_from (-6) l) = Nat.min 6 (List.length l).
Proof.
  unfold Py.slice_from. replace (-6 <? 0) with true by reflexivity.
  rewrite length_skipn. lia.
Qed.

(** X2. Whatever the history, the [history] field of the payload is null
    exactly when the history is empty, and otherwise a suffix of the
    history of length [min(6, len(history))]: the whole history when it
    has at most 6 entries. *)
Theorem payload_history_is_bounded_suffix q k h :
  match history (payload q k h) with
  | None => h = []
  | Some sent =>
      h <> []
      /\ List.length sent = Nat.min 6 (List.length h)
      /\ (exists older, h = (older ++ sent)%list)
      /\ ((List.length h <= 6)%nat -> sent = h)
  end.
Proof.
  destruct h as [| m h']; [reflexivity |].
  cbn [payload history]. split; [discriminate |].
  split; [apply slice_from_length |].
  split; [apply slice_from_suffix | apply slice_from_short].
Qed.

Lemma payload_history_is_bounded_suffix_witness :
  history (payload "q1" 5 [user_message "q1"]) = Some [user_message "q1"].
Proof.
  pose proof (payload_history_is_bounded_suffix "q1" 5 [user_message "q1"]) as H.
  destruct (history (payload "q1" 5 [user_message "q1"])) as [sent |];
    [| discriminate H].
  destruct H as (_ & _ & _ & Hshort).
  rewrite (Hshort ltac:(cbn; lia)). reflexivity.
Defined.

(** ** The traffic of one exchange *)

Lemma http_events_app evs1 evs2 :
  http_events (evs1 ++ evs2) = (http_events evs1 ++ http_events evs2)%list.
Proof. unfold http_events. apply filter_app. Qed.

Lemma http_events_draws evs : Forall is_draw evs -> http_events evs = [].
Proof.
  induction 1 as [| ev evs Hev _ IH]; [reflexivity |].
  destruct ev; cbn in *; try contradiction. exact IH.
Qed.

Lemma slice_from_snoc {A} (l : list A) (x : A) :
  exists before older,
    Py.slice_from (-6) (l ++ [x]) = (before ++ [x])%list
    /\ l = (older ++ before)%list
    /\ (List.length before <= 5)%nat.
Proof.
  unfold Py.slice_from. replace (-6 <? 0) with true by reflexivity.
  rewrite length_app. cbn [List.length].
  set (n := Z.to_nat (Z.max (Z.of_nat (List.length l + 1) + -6) 0)).
  assert (Hn : (n <= List.length l)%nat) by (subst n; lia).
  exists (skipn n l), (firstn n l).
  rewrite skipn_app. replace (n - List.length l)%nat with 0%nat by lia.
  cbn [skipn]. split; [reflexivity |].
  split; [symmetry; apply firstn_skipn |].
  rewrite length_skipn. subst n. lia.
Qed.

(** Both outcomes of an exchange, with its traffic. *)
Lemma _send_and_render_traffic env q s tr ms k :
  session_state.messages s = Some ms ->
  session_state.top_k s = Some k ->
  exists s' evs,
    _send_and_render env q {| session := s; trace := tr |} =
      (Ok tt, {| session := s'; trace := (tr ++ evs)%list |})
    /\ http_events evs = [query_event env s q k (ms ++ [user_message q])%list]
    /\ session_state.backend_url s' = session_state.backend_url s
    /\ session_state.top_k s' = session_state.top_k s
    /\ session_state.chat_input s' = session_state.chat_input s.
Proof.
  intros Hms Hk.
  destruct (fst (_post_query env (_get_backend_url env s) q k
                   (ms ++ [user_message q])%list {| session := s; trace := tr |}))
    as [resp | e] eqn:Hpost.
  - destruct (_send_and_render_answered env q s tr ms k resp _ Hms Hk Hpost)
      as (evs & E & F).
    do 2 eexists. split; [exact E |].
    split.
    + rewrite !http_events_app, (http_events_draws evs F). reflexivity.
    + unfold after_followups.
      destruct (selected env 0 (Py.or_list (follow_ups resp))); repeat split.
  - rewrite (_send_and_render_failed env q s tr ms k e _ Hms Hk Hpost).
    do 2 eexists. split; [reflexivity |].
    split; [| repeat split].
    rewrite !http_events_app. reflexivity.
Qed.

(** X3. An exchange sends exactly one HTTP request: a POST to
    [<base URL>/query] with a 120 second time-out, whose [query] is the
    text asked, whose [top_k] is the stored one, and whose [history] is
    never null: it ends with the user message of the text asked, after
    the at most 5 most recent earlier messages. *)
Theorem exchange_sends_one_query env q s tr ms k :
  session_state.messages s = Some ms ->
  session_state.top_k s = Some k ->
  exists evs p before older,
    trace (snd (_send_and_render env q {| session := s; trace := tr |}))
      = (tr ++ evs)%list
    /\ http_events evs = [HttpPost (_get_backend_url env s ++ "/query") p 120]
    /\ query p = q
    /\ top_k p = k
    /\ history p = Some (before ++ [user_message q])%list
    /\ ms = (older ++ before)%list
    /\ (List.length before <= 5)%nat.
Proof.
  intros Hms Hk.
  destruct (_send_and_render_traffic env q s tr ms k Hms Hk)
    as (s' & evs & E & H & _).
  destruct (slice_from_snoc ms (user_message q)) as (before & older & Hs & Ho & Hl).
  exists evs, (payload q k (ms ++ [user_message q])%list), before, older.
  rewrite E. cbn [snd trace]. split; [reflexivity |].
  split; [exact H |]. split; [reflexivity |]. split; [reflexivity |].
  split; [| split; assumption].
  unfold payload. cbn [history]. destruct ms; cbn [app]; now rewrite <- Hs.
Qed.

Lemma exchange_sends_one_query_witness :
  exists evs p before older,
    trace (snd (_send_and_render (Demo.env Demo.idle Demo.slow_backend) "q5"
                  {| session := Demo.ongoing Demo.seven None; trace := [] |}))
      = ([] ++ evs)%list
    /\ http_events evs
       = [HttpPost (_get_backend_url (Demo.env Demo.idle Demo.slow_backend)
                      (Demo.ongoing Demo.seven None) ++ "/query") p 120]
    /\ query p = "q5"
    /\ top_k p = 5
    /\ history p = Some (before ++ [user_message "q5"])%list
    /\ Demo.seven = (older ++ before)%list
    /\ (List.length before <= 5)%nat.
Proof.
  apply (exchange_sends_one_query (Demo.env Demo.idle Demo.slow_backend) "q5"
           (Demo.ongoing Demo.seven None) [] Demo.seven 5);
    reflexivity.
Defined.

(** ** The follow-up buttons *)

Lemma str_int_injective a b : Py.str_int a = Py.str_int b -> a = b.
Proof.
  unfold Py.str_int. intros H.
  apply DecimalZ.to_int_inj.
  assert (Hnil : forall z, Z.to_int z <> Decimal.Pos Decimal.Nil
                           /\ Z.to_int z <> Decimal.Neg Decimal.Nil).
  { intros [| p | p]; cbn; split; try discriminate;
      intros [= Hp]; now apply (DecimalPos.Unsigned.to_uint_nonnil p). }
  assert (Hsome : Some (Z.to_int a) = Some (Z.to_int b)).
  { rewrite <- (NilZero.isi (Z.to_int a)) by apply Hnil.
    rewrite <- (NilZero.isi (Z.to_int b)) by apply Hnil.
    now rewrite H. }
  now injection Hsome.
Qed.

Lemma fu_key_injective i j : fu_key i = fu_key j -> i = j.
Proof.
  unfold fu_key. cbn [append]. intros [= H].
  apply str_int_injective in H. lia.
Qed.

Lemma buttons_app evs1 evs2 :
  buttons (evs1 ++ evs2) = (buttons evs1 ++ buttons evs2)%list.
Proof. unfold buttons. apply flat_map_app. Qed.

Lemma for_enumerate_buttons env ncols fus :
  forall i s tr,
  exists evs,
    trace (snd (for_enumerate i fus (render_followup env ncols)
                  {| session := s; trace := tr |})) = (tr ++ evs)%list
    /\ map fst (buttons evs) = fus
    /\ map snd (buttons evs) = map fu_key (seq i (List.length fus)).
Proof.
  induction fus as [| fu rest IH]; intros i s tr.
  - exists []. cbn. now rewrite app_nil_r.
  - cbn [for_enumerate]. unfold render_followup at 1. run_monad.
    destruct (st.button (front env) fu (fu_key i)); cbn [session trace];
      match goal with
      | |- context [for_enumerate (S i) rest _ {| session := ?s1; trace := ?t1 |}] =>
          destruct (IH (S i) s1 t1) as (evs & E & B1 & B2);
          destruct (for_enumerate (S i) rest (render_followup env ncols)
                      {| session := s1; trace := t1 |}) as [[[] | e] w'];
          cbn [snd] in E |- *; rewrite E, <- app_assoc;
          eexists; (split; [reflexivity |]);
          rewrite buttons_app, !map_app, B1, B2; split; reflexivity
      end.
Qed.

Lemma NoDup_map_injective {A B} (f : A -> B) (l : list A) :
  (forall x y, f x = f y -> x = y) -> NoDup l -> NoDup (map f l).
Proof.
  intros Hf. induction 1 as [| x l Hx _ IH]; cbn [map]; constructor; [| exact IH].
  rewrite in_map_iff. intros (y & Hy & Hin). apply Hf in Hy. now subst y.
Qed.

(** X4. [_render_followups] draws one button per follow-up, labelled with
    the follow-ups in the order received and keyed [fu_0], [fu_1], ...;
    no two buttons it draws share a key. *)
Theorem follow_up_buttons_are_distinct env fus s tr :
  exists evs,
    trace (snd (_render_followups env fus {| session := s; trace := tr |}))
      = (tr ++ evs)%list
    /\ map fst (buttons evs) = fus
    /\ map snd (buttons evs) = map fu_key (seq 0 (List.length fus))
    /\ NoDup (map snd (buttons evs)).
Proof.
  assert (Hkeys : forall n, NoDup (map fu_key (seq 0 n))).
  { intros n. apply NoDup_map_injective; [| apply seq_NoDup].
    intros i j. apply fu_key_injective. }
  destruct fus as [| fu rest].
  - exists []. cbn. rewrite app_nil_r. repeat split. constructor.
  - cbn [_render_followups]. generalize (fu :: rest). intros fus. run_monad.
    match goal with
    | |- context [for_enumerate 0 fus _ {| session := ?s1; trace := ?t1 |}] =>
        destruct (for_enumerate_buttons env (Nat.min 3 (List.length fus)) fus 0%nat s1 t1)
          as (evs & E & B1 & B2);
        destruct (for_enumerate 0 fus
                    (render_followup env (Nat.min 3 (List.length fus)))
                    {| session := s1; trace := t1 |}) as [[[] | e] w'];
        cbn [snd] in E |- *; rewrite E, <- !app_assoc
    end.
    all: eexists; (split; [reflexivity |]);
      rewrite !buttons_app, !map_app, B1, B2; cbn [buttons flat_map map app];
      repeat split; apply Hkeys.
Qed.

Lemma selected_in env fus :
  forall i fu, selected env i fus = Some fu -> In fu fus.
Proof.
  induction fus as [| x rest IH]; intros i fu; cbn [selected]; [discriminate |].
  destruct (selected env (S i) rest) as [y |] eqn:Hrest.
  - intros [= <-]. right. exact (IH _ _ Hrest).
  - destruct (st.button (front env) x (fu_key i)); [| discriminate].
    intros [= <-]. left. reflexivity.
Qed.

Lemma selected_none env fus :
  (forall fu key, st.button (front env) fu key = false) ->
  forall i, selected env i fus = None.
Proof.
  intros Hnone. induction fus as [| x rest IH]; intros i; cbn [selected];
    [reflexivity |].
  now rewrite IH, Hnone.
Qed.

(** X5. [_render_followups] always returns, sends nothing over HTTP, and
    changes at most the key [pending_input] of the session state, which
    it can only set to one of the follow-ups it was given; when no button
    is reported selected the session state is left as it was. *)
Theorem follow_ups_only_set_pending env fus s tr :
  exists s' evs,
    _render_followups env fus {| session := s; trace := tr |} =
      (Ok tt, {| session := s'; trace := (tr ++ evs)%list |})
    /\ http_events evs = []
    /\ (s' = s
        \/ exists fu, In fu fus /\ s' = session_state.set_pending_input (Some fu) s)
    /\ ((forall fu key, st.button (front env) fu key = false) -> s' = s).
Proof.
  destruct (_render_followups_run env fus s tr) as (evs & E & F).
  exists (after_followups env fus s), evs.
  split; [exact E |]. split; [now apply http_events_draws |].
  unfold after_followups. split.
  - destruct (selected env 0 fus) as [fu |] eqn:Hsel; [| left; reflexivity].
    right. exists fu. split; [exact (selected_in _ _ _ _ Hsel) | reflexivity].
  - intros Hnone. now rewrite (selected_none env fus Hnone).
Qed.

Lemma follow_ups_only_set_pending_witness :
  snd (_render_followups (Demo.env Demo.idle Demo.slow_backend)
         ["How much does X cost?"; "Is X free?"]
         {| session := Demo.ongoing [] None; trace := [] |})
  = {| session := Demo.ongoing [] None;
       trace := trace (snd (_render_followups (Demo.env Demo.idle Demo.slow_backend)
                              ["How much does X cost?"; "Is X free?"]
                              {| session := Demo.ongoing [] None; trace := [] |})) |}.
Proof.
  destruct (follow_ups_only_set_pending (Demo.env Demo.idle Demo.slow_backend)
              ["How much does X cost?"; "Is X free?"] (Demo.ongoing [] None) [])
    as (s' & evs & E & _ & _ & Hnone).
  rewrite E. cbn [snd trace]. rewrite (Hnone ltac:(reflexivity)). reflexivity.
Defined.

(** ** The sidebar *)

Lemma _healthcheck_any_world env url w1 w2 :
  fst (_healthcheck env url w1) = fst (_healthcheck env url w2).
Proof.
  unfold _healthcheck. run_monad.
  destruct (requests.get (net env) (url ++ "/health") 5) as [resp | e];
    [| reflexivity].
  destruct (requests.ok resp); [| reflexivity].
  destruct (requests.json resp); reflexivity.
Qed.

Lemma health_badge_run h :
  exists el,
    forall s tr,
      health_badge h {| session := s; trace := tr |} =
        (Ok tt, {| session := s; trace := (tr ++ [Draw st.Sidebar el])%list |}).
Proof.
  unfold health_badge.
  repeat (match goal with |- context [if ?b then _ else _] => destruct b end);
    eexists; intros; reflexivity.
Qed.

Lemma sidebar_run env s tr :
  exists hs el,
    (forall w, fst (_healthcheck env (pass_base_url env s) w) = Ok hs)
    /\ (forall s' tr',
           health_badge hs {| session := s'; trace := tr' |} =
             (Ok tt, {| session := s';
                        trace := (tr' ++ [Draw st.Sidebar el])%list |}))
    /\ sidebar env {| session := s; trace := tr |} =
         (match slider_answer env s with
          | Ok _ => Ok tt
          | Raise e => Raise e
          end,
          {| session := match slider_answer env s with
                        | Ok v => session_state.set_top_k (Some v) (stopped env s)
                        | Raise _ => stopped env s
                        end;
             trace := (tr ++ sidebar_events env s el)%list |}).
Proof.
  destruct s as [b k ms p c].
  remember (pass_base_url env
              {| session_state.backend_url := b; session_state.top_k := k;
                 session_state.messages := ms; session_state.pending_input := p;
                 session_state.chat_input := c |}) as U eqn:HU.
  destruct (_healthcheck_run env U session_state.empty []) as (hs & Ehs).
  destruct (health_badge_run hs) as (el & Hel).
  exists hs, el. split.
  { intros w.
    rewrite (_healthcheck_any_world env _ w {| session := session_state.empty; trace := [] |}).
    now rewrite Ehs. }
  split; [exact Hel |].
  assert (Hhs : forall s1 t1,
             _healthcheck env U {| session := s1; trace := t1 |}
             = (Ok hs, {| session := s1;
                          trace := (t1 ++ [HttpGet (U ++ "/health") 5])%list |})).
  { intros s1 t1. destruct (_healthcheck_run env U s1 t1) as (hs' & E').
    rewrite E'. f_equal. f_equal.
    pose proof (_healthcheck_any_world env U
                  {| session := s1; trace := t1 |}
                  {| session := session_state.empty; trace := [] |}) as H.
    rewrite E', Ehs in H. cbn in H. now injection H. }
  clear Ehs.
  unfold sidebar, slider_answer, slider_value, sidebar_events, stopped,
    entered_backend_url. rewrite <- HU. run_monad. state_simpl.
  destruct b as [b |]; state_simpl;
    (match goal with
     | |- context [_healthcheck env ?u {| session := ?s1; trace := ?t1 |}] =>
         replace u with U by (rewrite HU; reflexivity);
         rewrite (Hhs s1 t1)
     end);
    rewrite Hel; state_simpl;
    destruct k as [k |]; state_simpl;
    (match goal with
     | |- context [st.slider ?f ?l ?lo ?hi ?v] =>
         destruct (st.slider f l lo hi v) as [v' | e]
     end);
    state_simpl; rewrite <- !app_assoc; reflexivity.
Qed.

Ltac run_monad_in H :=
  unfold messages_append, requests_get, requests_post, draw in H;
  unfold bind, ret, emit, get_state, modify_state, get_attr, lift, try_except, raise in H;
  cbn [session trace fst snd] in H.

Ltac health_case Hw Hel :=
  let H := fresh "H" in
  pose proof (Hw {| session := session_state.empty; trace := [] |}) as H;
  unfold _healthcheck in H; run_monad_in H;
  repeat match goal with
    | E : requests.get _ _ _ = _ |- _ => rewrite E in H
    | E : requests.ok _ = _ |- _ => rewrite E in H
    | E : requests.json _ = _ |- _ => rewrite E in H
    end;
  cbn [fst] in H; injection H as <-;
  let H' := fresh "H" in
  pose proof (Hel session_state.empty []) as H';
  unfold health_badge in H'.

(** X6. The sidebar reports the health of the backend on every pass: an
    error status of [/health] is shown as [API error: HTTP <code>], a call
    that raises as [API error: <message>], a body whose status is [ok] as
    [API healthy], and a body without a status as [API status unknown]. *)
Theorem sidebar_reports_health env s tr :
  let url := pass_base_url env s ++ "/health" in
  let drawn := trace (snd (sidebar env {| session := s; trace := tr |})) in
  (forall resp,
      requests.get (net env) url 5 = Ok resp ->
      requests.ok resp = false ->
      In (Draw st.Sidebar
            (st.Error ("API error: HTTP " ++ Py.str_int (requests.status_code resp))))
         drawn)
  /\ (forall e,
         requests.get (net env) url 5 = Raise e ->
         exn_str e <> "" ->
         In (Draw st.Sidebar (st.Error ("API error: " ++ exn_str e))) drawn)
  /\ (forall resp hs,
         requests.get (net env) url 5 = Ok resp ->
         requests.ok resp = true ->
         requests.json resp = Ok hs ->
         status hs = Some "ok" ->
         In (Draw st.Sidebar (st.Success "API healthy")) drawn)
  /\ (forall resp hs,
         requests.get (net env) url 5 = Ok resp ->
         requests.ok resp = true ->
         requests.json resp = Ok hs ->
         status hs = None ->
         In (Draw st.Sidebar (st.Warning "API status unknown")) drawn).
Proof.
  cbv zeta.
  destruct (sidebar_run env s tr) as (hs & el & Hw & Hel & ->).
  cbn [snd trace]. unfold sidebar_events.
  assert (Hin : forall x, x = el ->
            In (Draw st.Sidebar x)
              (tr ++ [Draw st.Sidebar (st.Subheader "Backend");
                      Draw st.Sidebar
                        (st.TextInput "Backend URL"
                           match session_state.backend_url s with
                           | Some b => b
                           | None => DEFAULT_BACKEND_URL env
                           end);
                      HttpGet (pass_base_url env s ++ "/health") 5;
                      Draw st.Sidebar el;
                      Draw st.Sidebar (st.Expander "Options");
                      Draw st.Sidebar (st.Slider "Top K" 1 20 (slider_value s))])%list).
  { intros x ->. rewrite in_app_iff. right. cbn. tauto. }
  repeat split.
  - intros resp Hget Hok. apply Hin. health_case Hw Hel.
    cbn in H0. injection H0 as H0. exact H0.
  - intros e Hget Hmsg. apply Hin. health_case Hw Hel.
    apply truthy_nonempty in Hmsg.
    cbn in H0. rewrite Hmsg in H0. cbn in H0.
    injection H0 as H0. exact H0.
  - intros resp h Hget Hok Hjson Hst. apply Hin. health_case Hw Hel.
    rewrite Hst in H0. cbn in H0.
    injection H0 as H0. exact H0.
  - intros resp h Hget Hok Hjson Hst. apply Hin. health_case Hw Hel.
    rewrite Hst in H0. cbn in H0.
    injection H0 as H0. exact H0.
Qed.

Lemma sidebar_reports_health_witness :
  In (Draw st.Sidebar (st.Error "API error: HTTP 503"))
     (trace (snd (sidebar (Demo.env Demo.idle (Demo.unhealthy 503 "Service Unavailable"))
                    Demo.fresh))).
Proof.
  apply (proj1 (sidebar_reports_health
                  (Demo.env Demo.idle (Demo.unhealthy 503 "Service Unavailable"))
                  session_state.empty [])
           {| requests.status_code := 503;
              requests.reason := "Service Unavailable";
              requests.url := "https://backend/health";
              requests.json := Raise (Exn JSONDecodeError
                                        "Expecting value: line 1 column 1 (char 0)") |});
    reflexivity.
Defined.

(** ** The history on the page *)

Lemma for_each_bubbles ms :
  forall s tr,
    for_each ms
      (fun m =>
         draw st.Main (st.ChatMessage (role m)) ;;
         draw st.Main (st.Markdown (content m) false))
      {| session := s; trace := tr |} =
    (Ok tt, {| session := s; trace := (tr ++ flat_map bubble ms)%list |}).
Proof.
  induction ms as [| m ms IH]; intros s tr.
  - cbn. now rewrite app_nil_r.
  - cbn [for_each flat_map]. unfold bind at 1. unfold bind at 1.
    unfold draw, emit. cbn [session trace]. rewrite IH.
    unfold bubble. rewrite <- !app_assoc. reflexivity.
Qed.

(** X7. The history section draws the stored messages in the order they
    were stored, each as a chat element of its role followed by its
    content, and changes nothing; if the session state has no [messages]
    key it raises an [AttributeError] and draws nothing. *)
Theorem chat_history_draws_in_order s tr :
  (forall ms,
      session_state.messages s = Some ms ->
      chat_history {| session := s; trace := tr |} =
        (Ok tt, {| session := s; trace := (tr ++ flat_map bubble ms)%list |}))
  /\ (session_state.messages s = None ->
      exists e,
        exn_kind e = AttributeError
        /\ chat_history {| session := s; trace := tr |} =
             (Raise e, {| session := s; trace := tr |})).
Proof.
  split.
  - intros ms Hms. unfold chat_history. unfold bind at 1. unfold get_attr.
    cbn [session]. rewrite Hms. apply for_each_bubbles.
  - intros Hms. unfold chat_history. unfold bind at 1. unfold get_attr.
    cbn [session]. rewrite Hms. eexists. split; [| reflexivity]. reflexivity.
Qed.

Lemma chat_history_draws_in_order_witness :
  chat_history {| session := Demo.ongoing Demo.seven None; trace := [] |} =
    (Ok tt, {| session := Demo.ongoing Demo.seven None;
               trace := ([] ++ flat_map bubble Demo.seven)%list |}).
Proof.
  apply (proj1 (chat_history_draws_in_order (Demo.ongoing Demo.seven None) [])).
  reflexivity.
Defined.

(** ** A whole pass *)

Lemma chat_history_exact s tr ms :
  session_state.messages s = Some ms ->
  chat_history {| session := s; trace := tr |} =
    (Ok tt, {| session := s; trace := (tr ++ flat_map bubble ms)%list |}).
Proof.
  intros Hms. unfold chat_history. unfold bind at 1. unfold get_attr.
  cbn [session]. rewrite Hms. apply for_each_bubbles.
Qed.

Lemma app_run_full env s tr :
  exists el,
    match slider_answer env s with
    | Ok v =>
        app env {| session := s; trace := tr |} =
          input env
            {| session := ready env s v;
               trace := (tr ++ sidebar_events env s el ++ page_heading
                           ++ flat_map bubble
                                (match session_state.messages s with
                                 | Some ms => ms
                                 | None => []
                                 end))%list |}
    | Raise e =>
        app env {| session := s; trace := tr |} =
          (Raise e, {| session := stopped env s;
                       trace := (tr ++ sidebar_events env s el)%list |})
    end.
Proof.
  destruct (sidebar_run env s tr) as (hs & el & _ & _ & Hside).
  exists el. revert Hside.
  destruct (slider_answer env s) as [v | e]; intros Hside;
    unfold app; unfold bind at 1; rewrite Hside; clear Hside; [| reflexivity].
  unfold session_state_init, page_heading, stopped, ready. run_monad. state_simpl.
  destruct s as [b k [ms |] p c]; state_simpl;
    (match goal with
     | |- context [chat_history {| session := ?s1; trace := ?t1 |}] =>
         rewrite (chat_history_exact s1 t1 _ eq_refl)
     end);
    rewrite <- !app_assoc; reflexivity.
Qed.

(** Both outcomes of an exchange, with everything the pass needs. *)
Lemma _send_and_render_full env q s tr ms k :
  session_state.messages s = Some ms ->
  session_state.top_k s = Some k ->
  exists s' evs new,
    _send_and_render env q {| session := s; trace := tr |} =
      (Ok tt, {| session := s'; trace := (tr ++ evs)%list |})
    /\ http_events evs =
         [HttpPost (_get_backend_url env s ++ "/query")
            (payload q k (ms ++ [user_message q])%list) 120]
    /\ session_state.messages s' = Some (ms ++ user_message q :: new)%list
    /\ (new = [] \/ exists a, a <> "" /\ new = [assistant_message a])
    /\ session_state.backend_url s' = session_state.backend_url s
    /\ session_state.top_k s' = Some k
    /\ (session_state.pending_input s' = session_state.pending_input s
        \/ exists fu i,
             session_state.pending_input s' = Some fu
             /\ st.button (front env) fu (fu_key i) = true).
Proof.
  intros Hms Hk.
  destruct (fst (_post_query env (_get_backend_url env s) q k
                   (ms ++ [user_message q])%list {| session := s; trace := tr |}))
    as [resp | e] eqn:Hpost.
  - destruct (_send_and_render_answered env q s tr ms k resp _ Hms Hk Hpost)
      as (evs & E & F).
    do 3 eexists. split; [exact E |].
    split; [rewrite !http_events_app, (http_events_draws evs F); reflexivity |].
    split; [reflexivity |].
    split; [right; eexists; split; [| reflexivity];
            apply or_str_nonempty; discriminate |].
    unfold after_followups.
    destruct (selected env 0 (Py.or_list (follow_ups resp))) as [fu |] eqn:Hsel;
      state_simpl; (split; [reflexivity |]); (split; [exact Hk |]).
    + right. destruct (selected_button _ _ _ _ Hsel) as (i & Hi).
      exists fu, i. split; [reflexivity | exact Hi].
    + left. reflexivity.
  - rewrite (_send_and_render_failed env q s tr ms k e _ Hms Hk Hpost).
    do 2 eexists. exists []. split; [reflexivity |].
    split; [rewrite !http_events_app; reflexivity |].
    split; [reflexivity |]. split; [left; reflexivity |].
    state_simpl. split; [reflexivity |]. split; [exact Hk | left; reflexivity].
Qed.

(** The input section, in full: either nothing was typed, and then
    nothing is sent or appended, the section raising when a non-empty
    follow-up is pending; or a text was typed and it is the one asked. *)
Lemma input_full env s tr ms k :
  session_state.messages s = Some ms ->
  session_state.top_k s = Some k ->
  exists r s' evs new,
    input env {| session := s; trace := tr |} =
      (r, {| session := s'; trace := (tr ++ evs)%list |})
    /\ session_state.messages s' = Some (ms ++ new)%list
    /\ session_state.backend_url s' = session_state.backend_url s
    /\ session_state.top_k s' = Some k
    /\ (session_state.pending_input s' = None
        \/ exists fu i,
             session_state.pending_input s' = Some fu
             /\ st.button (front env) fu (fu_key i) = true)
    /\ ((http_events evs = [] /\ new = []
         /\ Py.truthy_opt (st.chat_input (front env)) = false
         /\ session_state.pending_input s' = None
         /\ ((Py.truthy_opt (session_state.pending_input s) = false /\ r = Ok tt)
             \/ (Py.truthy_opt (session_state.pending_input s) = true
                 /\ exists e, exn_kind e = StreamlitAPIException /\ r = Raise e)))
        \/ exists q,
             q <> ""
             /\ st.chat_input (front env) = Some q
             /\ r = Ok tt
             /\ http_events evs =
                  [HttpPost (_get_backend_url env s ++ "/query")
                     (payload q k (ms ++ [user_message q])%list) 120]
             /\ (new = [user_message q]
                 \/ exists a, a <> "" /\ new = [user_message q; assistant_message a])).
Proof.
  intros Hms Hk.
  destruct (Py.truthy_opt (st.chat_input (front env))) eqn:Hchat.
  - destruct (st.chat_input (front env)) as [u |] eqn:Hu; [| discriminate].
    cbn in Hchat. rewrite (input_typed env s tr u Hu Hchat).
    destruct (_send_and_render_full env u
                (session_state.set_pending_input None s) (tr ++ [chat_box])%list
                ms k Hms Hk) as (s' & evs & new & E & H & Hm & Hnew & Hb & Ht & Hp).
    exists (Ok tt), s', (chat_box :: evs), (user_message u :: new).
    rewrite E, <- app_assoc. split; [reflexivity |].
    split; [exact Hm |]. split; [exact Hb |]. split; [exact Ht |].
    split; [destruct Hp as [Hp | Hp]; [left; exact Hp | right; exact Hp] |].
    right. exists u. split; [now apply truthy_nonempty |].
    split; [reflexivity |]. split; [reflexivity |]. split; [exact H |].
    destruct Hnew as [-> | (a & Ha & ->)]; [left; reflexivity |].
    right. exists a. split; [exact Ha | reflexivity].
  - destruct (Py.truthy_opt (session_state.pending_input s)) eqn:Hpend.
    + destruct (session_state.pending_input s) as [p |] eqn:Hp; [| discriminate].
      cbn in Hpend.
      destruct (input_prefilled env s tr p Hp Hpend Hchat) as (e & He & E).
      rewrite E.
      exists (Raise e), (session_state.set_pending_input None s), [chat_box], [].
      split; [reflexivity |]. state_simpl. rewrite app_nil_r.
      split; [exact Hms |]. split; [reflexivity |]. split; [exact Hk |].
      split; [left; reflexivity |]. left.
      split; [reflexivity |]. split; [reflexivity |]. split; [reflexivity |].
      split; [reflexivity |]. right. split; [reflexivity |].
      exists e. split; [exact He | reflexivity].
    + rewrite (input_idle env s tr Hpend Hchat).
      exists (Ok tt), (session_state.set_pending_input None s), [chat_box], [].
      split; [reflexivity |]. state_simpl. rewrite app_nil_r.
      split; [exact Hms |]. split; [reflexivity |]. split; [exact Hk |].
      split; [left; reflexivity |]. left.
      split; [reflexivity |]. split; [reflexivity |]. split; [reflexivity |].
      split; [reflexivity |]. left. split; reflexivity.
Qed.

Lemma posted_http_events evs : posted (http_events evs) = posted evs.
Proof.
  induction evs as [| ev evs IH]; [reflexivity |].
  destruct ev; cbn [http_events filter posted flat_map app];
    fold (http_events evs); fold (posted evs);
    fold (posted (http_events evs)); now rewrite ?IH.
Qed.

(** A pass that got past the slider, with everything about it. *)
Lemma app_full env s tr v :
  slider_answer env s = Ok v ->
  exists r s' evs new,
    app env {| session := s; trace := tr |} =
      (r, {| session := s'; trace := (tr ++ evs)%list |})
    /\ session_state.messages s' =
         Some (match session_state.messages s with Some ms => ms | None => [] end
               ++ new)%list
    /\ session_state.backend_url s' = Some (entered_backend_url env s)
    /\ session_state.top_k s' = Some v
    /\ (session_state.pending_input s' = None
        \/ exists fu i,
             session_state.pending_input s' = Some fu
             /\ st.button (front env) fu (fu_key i) = true)
    /\ ((http_events evs = [HttpGet (pass_base_url env s ++ "/health") 5]
         /\ new = []
         /\ Py.truthy_opt (st.chat_input (front env)) = false
         /\ session_state.pending_input s' = None
         /\ ((Py.truthy_opt (session_state.pending_input s) = false /\ r = Ok tt)
             \/ (Py.truthy_opt (session_state.pending_input s) = true
                 /\ exists e, exn_kind e = StreamlitAPIException /\ r = Raise e)))
        \/ exists q p,
             q <> ""
             /\ st.chat_input (front env) = Some q
             /\ r = Ok tt
             /\ http_events evs =
                  [HttpGet (pass_base_url env s ++ "/health") 5;
                   HttpPost (pass_base_url env s ++ "/query") p 120]
             /\ query p = q /\ top_k p = v
             /\ (new = [user_message q]
                 \/ exists a, a <> "" /\ new = [user_message q; assistant_message a])).
Proof.
  intros Hs. destruct (app_run_full env s tr) as (el & Hrun).
  rewrite Hs in Hrun. rewrite Hrun. clear Hrun.
  match goal with
  | |- context [input env {| session := _; trace := ?t1 |}] =>
      destruct (input_full env (ready env s v) t1
                  (match session_state.messages s with Some ms => ms | None => [] end)
                  v eq_refl eq_refl)
        as (r & s' & evs & new & E & Hm & Hb & Ht & Hp & Hcases)
  end.
  rewrite E.
  exists r, s', (sidebar_events env s el ++ page_heading
                   ++ flat_map bubble
                        (match session_state.messages s with Some ms => ms | None => [] end)
                   ++ evs)%list, new.
  split; [rewrite <- !app_assoc; reflexivity |].
  split; [exact Hm |]. split; [exact Hb |]. split; [exact Ht |].
  split; [exact Hp |].
  assert (Hpre : forall rest,
             http_events (sidebar_events env s el ++ page_heading
                            ++ flat_map bubble
                                 (match session_state.messages s with
                                  | Some ms => ms | None => [] end)
                            ++ rest)
             = HttpGet (pass_base_url env s ++ "/health") 5 :: http_events rest).
  { intros rest. rewrite !http_events_app.
    rewrite (http_events_draws (flat_map bubble _)).
    - reflexivity.
    - apply Forall_flat_map. apply Forall_forall. intros m _.
      repeat constructor. }
  rewrite Hpre.
  destruct Hcases as [(H & -> & Hc & Hpn & Hr) | (q & Hq & Hsrc & Hr & H & Hnew)].
  - left. rewrite H. split; [reflexivity |]. split; [reflexivity |].
    split; [exact Hc |]. split; [exact Hpn | exact Hr].
  - right. eexists q, _. split; [exact Hq |]. split; [exact Hsrc |].
    split; [exact Hr |].
    rewrite H. split; [reflexivity |]. split; [reflexivity |].
    split; [reflexivity | exact Hnew].
Qed.

(** X8. On a pass that got past the slider: when a non-empty follow-up
    is pending and no text was typed, the pass raises a
    [StreamlitAPIException] at the assignment to
    [st.session_state.chat_input], the pending follow-up being already
    taken out, nothing being appended to the history and no query being
    sent; in every other case the pass returns normally, whether the
    query it sends succeeds or fails. *)
Theorem pass_stops_at_pending_follow_up env s tr v :
  st.slider (front env) "Top K" 1 20
    (match session_state.top_k s with Some k => k | None => 5 end) = Ok v ->
  let w := {| session := s; trace := tr |} in
  let out := app env w in
  (Py.truthy_opt (session_state.pending_input s) = true ->
   Py.truthy_opt (st.chat_input (front env)) = false ->
   (exists e, fst out = Raise e /\ exn_kind e = StreamlitAPIException)
   /\ session_state.pending_input (session (snd out)) = None
   /\ messages_of (snd out) = messages_of w
   /\ exists evs, trace (snd out) = (tr ++ evs)%list /\ posted evs = [])
  /\ (Py.truthy_opt (session_state.pending_input s) = false
      \/ Py.truthy_opt (st.chat_input (front env)) = true ->
      fst out = Ok tt).
Proof.
  intros Hs. cbv zeta.
  destruct (app_full env s tr v Hs)
    as (r & s' & evs & new & E & Hm & _ & _ & _ & Hcases).
  rewrite E. cbn [fst snd session trace]. split.
  - intros Hpend Hchat.
    destruct Hcases as [(H & -> & _ & Hpn & Hr) | (q & p & Hq & Hsrc & _)].
    + destruct Hr as [(Hf & _) | (_ & e & He & ->)]; [congruence |].
      split; [exists e; split; [reflexivity | exact He] |].
      split; [exact Hpn |]. split.
      * unfold messages_of. cbn [session]. rewrite Hm, app_nil_r.
        destruct (session_state.messages s); reflexivity.
      * exists evs. split; [reflexivity |].
        now rewrite <- posted_http_events, H.
    + exfalso. rewrite Hsrc in Hchat. cbn in Hchat.
      apply truthy_nonempty in Hq. congruence.
  - intros Hor.
    destruct Hcases as [(_ & _ & Hc & _ & Hr) | (q & p & _ & _ & Hr & _)];
      [| exact Hr].
    destruct Hr as [(_ & ->) | (Hp & _)]; [reflexivity |].
    destruct Hor; congruence.
Qed.

Lemma pass_stops_at_pending_follow_up_witness :
  let w := {| session := Demo.ongoing [] (Some "How much does X cost?");
              trace := [] |} in
  let out := app (Demo.env Demo.idle (Demo.backend 200 "OK" (Ok Demo.about_x))) w in
  (exists e, fst out = Raise e /\ exn_kind e = StreamlitAPIException)
  /\ session_state.pending_input (session (snd out)) = None
  /\ messages_of (snd out) = messages_of w
  /\ exists evs, trace (snd out) = ([] ++ evs)%list /\ posted evs = [].
Proof.
  apply (proj1 (pass_stops_at_pending_follow_up
                  (Demo.env Demo.idle (Demo.backend 200 "OK" (Ok Demo.about_x)))
                  (Demo.ongoing [] (Some "How much does X cost?")) [] 5 eq_refl));
    reflexivity.
Defined.

(** X9. The HTTP traffic of a pass is one health check, a GET of
    [<base>/health] with a 5 second time-out, followed by at most one
    query, a POST to [<base>/query] with a 120 second time-out; both go
    to the same base URL, the one entered in the sidebar on that pass (or
    the default if none was entered), which does not end with a slash. *)
Theorem pass_traffic env s tr :
  let base := pass_base_url env s in
  ends_with "/" base = false
  /\ exists evs,
       trace (snd (app env {| session := s; trace := tr |})) = (tr ++ evs)%list
       /\ (http_events evs = [HttpGet (base ++ "/health") 5]
           \/ exists p,
                http_events evs = [HttpGet (base ++ "/health") 5;
                                   HttpPost (base ++ "/query") p 120]).
Proof.
  cbv zeta. split; [apply rstrip_no_trailing |].
  destruct (slider_answer env s) as [v | e] eqn:Hs.
  - destruct (app_full env s tr v Hs)
      as (r & s' & evs & new & E & _ & _ & _ & _ & Hcases).
    exists evs. rewrite E. split; [reflexivity |].
    destruct Hcases as [(H & _) | (q & p & _ & _ & _ & H & _)];
      [left; exact H | right; exists p; exact H].
  - destruct (app_run_full env s tr) as (el & Hrun).
    rewrite Hs in Hrun. rewrite Hrun.
    exists (sidebar_events env s el). split; [reflexivity |].
    left. reflexivity.
Qed.

(** X10. A pass on which no text is typed (nothing submitted, or an empty
    text) and no follow-up is pending (none, or an empty one) sends no
    query and leaves the history as it was. *)
Theorem idle_pass_sends_nothing env s tr :
  Py.truthy_opt (st.chat_input (front env)) = false ->
  Py.truthy_opt (session_state.pending_input s) = false ->
  let w' := snd (app env {| session := s; trace := tr |}) in
  exists evs,
    trace w' = (tr ++ evs)%list
    /\ posted evs = []
    /\ messages_of w' = messages_of {| session := s; trace := tr |}.
Proof.
  intros Hchat Hpend. cbv zeta.
  destruct (slider_answer env s) as [v | e] eqn:Hs.
  - destruct (app_full env s tr v Hs)
      as (r & s' & evs & new & E & Hm & _ & _ & _ & Hcases).
    exists evs. rewrite E. cbn [snd trace]. split; [reflexivity |].
    destruct Hcases as [(H & -> & _) | (q & p & Hq & Hsrc & _)].
    + rewrite <- posted_http_events, H. split; [reflexivity |].
      unfold messages_of. cbn [session]. rewrite Hm, app_nil_r.
      destruct (session_state.messages s); reflexivity.
    + exfalso. apply truthy_nonempty in Hq.
      rewrite Hsrc in Hchat. cbn in Hchat. congruence.
  - destruct (app_run_full env s tr) as (el & Hrun).
    rewrite Hs in Hrun. rewrite Hrun. cbn [snd trace].
    exists (sidebar_events env s el). split; [reflexivity |].
    split; reflexivity.
Qed.

Lemma idle_pass_sends_nothing_witness :
  let w' := snd (app (Demo.env Demo.idle Demo.slow_backend)
                   {| session := Demo.ongoing Demo.seven (Some ""); trace := [] |}) in
  exists evs,
    trace w' = ([] ++ evs)%list
    /\ posted evs = []
    /\ messages_of w'
       = messages_of {| session := Demo.ongoing Demo.seven (Some ""); trace := [] |}.
Proof.
  apply (idle_pass_sends_nothing (Demo.env Demo.idle Demo.slow_backend)
           (Demo.ongoing Demo.seven (Some "")) []); reflexivity.
Defined.

(** X11. The pending follow-up is read once: after a pass that got past
    the slider, [pending_input] is absent, or holds a follow-up whose
    button was selected during that very pass; a pass stopped by the
    slider leaves it as it was. *)
Theorem pending_input_is_read_once env s tr :
  let s' := session (snd (app env {| session := s; trace := tr |})) in
  (forall v,
      st.slider (front env) "Top K" 1 20
        (match session_state.top_k s with Some k => k | None => 5 end) = Ok v ->
      session_state.pending_input s' = None
      \/ exists fu i,
           session_state.pending_input s' = Some fu
           /\ st.button (front env) fu (fu_key i) = true)
  /\ (forall e,
         st.slider (front env) "Top K" 1 20
           (match session_state.top_k s with Some k => k | None => 5 end) = Raise e ->
         session_state.pending_input s' = session_state.pending_input s).
Proof.
  cbv zeta. split.
  - intros v Hs.
    destruct (app_full env s tr v Hs)
      as (r & s' & evs & new & E & _ & _ & _ & Hp & _).
    rewrite E. exact Hp.
  - intros e Hs. destruct (app_run_full env s tr) as (el & Hrun).
    unfold slider_answer, slider_value in Hrun. rewrite Hs in Hrun.
    rewrite Hrun. reflexivity.
Qed.

Lemma pending_input_is_read_once_witness :
  session_state.pending_input
    (session (snd (app (Demo.env Demo.idle Demo.slow_backend)
                     {| session := Demo.ongoing [] (Some "How much does X cost?");
                        trace := [] |})))
  = None.
Proof.
  destruct (proj1 (pending_input_is_read_once
                     (Demo.env Demo.idle Demo.slow_backend)
                     (Demo.ongoing [] (Some "How much does X cost?")) [])
              5 eq_refl) as [H | (fu & i & _ & Hb)].
  - exact H.
  - discriminate Hb.
Defined.

(** X12. A pass appends to the history nothing, or the user message of
    the text asked, or that message followed by one assistant message;
    it sends a query exactly when it appends a user message, and the
    query carries the text of that message, which is not empty. *)
Theorem pass_appends_one_exchange env s tr :
  let w := {| session := s; trace := tr |} in
  let w' := snd (app env w) in
  exists evs new,
    trace w' = (tr ++ evs)%list
    /\ messages_of w' = (messages_of w ++ new)%list
    /\ ((new = [] /\ posted evs = [])
        \/ exists q p,
             q <> "" /\ posted evs = [p] /\ query p = q
             /\ (new = [ {| role := "user"; content := q |} ]
                 \/ exists a,
                      a <> ""
                      /\ new = [ {| role := "user"; content := q |};
                                 {| role := "assistant"; content := a |} ])).
Proof.
  cbv zeta.
  destruct (slider_answer env s) as [v | e] eqn:Hs.
  - destruct (app_full env s tr v Hs)
      as (r & s' & evs & new & E & Hm & _ & _ & _ & Hcases).
    exists evs, new. rewrite E. cbn [snd trace]. split; [reflexivity |].
    split.
    { unfold messages_of. cbn [session]. rewrite Hm.
      destruct (session_state.messages s); reflexivity. }
    rewrite <- posted_http_events.
    destruct Hcases as [(H & -> & _) | (q & p & Hq & _ & _ & H & Hqp & _ & Hnew)].
    + left. rewrite H. split; reflexivity.
    + right. exists q, p. rewrite H.
      split; [exact Hq |]. split; [reflexivity |]. split; [exact Hqp | exact Hnew].
  - destruct (app_run_full env s tr) as (el & Hrun).
    rewrite Hs in Hrun. rewrite Hrun. cbn [snd trace].
    exists (sidebar_events env s el), []. split; [reflexivity |].
    split; [unfold messages_of, stopped; cbn; now rewrite app_nil_r |].
    left. split; reflexivity.
Qed.

(** X13. After a pass that got past the slider, the session state holds
    the three keys the script relies on: [backend_url] is what the text
    box of the sidebar answered, [top_k] is what the slider answered, and
    [messages] is present. *)
Theorem pass_sets_up_session env s tr v :
  st.slider (front env) "Top K" 1 20
    (match session_state.top_k s with Some k => k | None => 5 end) = Ok v ->
  let s' := session (snd (app env {| session := s; trace := tr |})) in
  session_state.backend_url s'
    = Some (st.text_input (front env) "Backend URL"
              (match session_state.backend_url s with
               | Some b => b
               | None => DEFAULT_BACKEND_URL env
               end))
  /\ session_state.top_k s' = Some v
  /\ session_state.messages s' <> None.
Proof.
  intros Hs. cbv zeta.
  destruct (app_full env s tr v Hs) as (r & s' & evs & new & E & Hm & Hb & Ht & _).
  rewrite E. cbn [snd session]. split; [exact Hb |]. split; [exact Ht |].
  rewrite Hm. discriminate.
Qed.

Lemma pass_sets_up_session_witness :
  let s' := session (snd (app (Demo.env Demo.idle Demo.slow_backend) Demo.fresh)) in
  session_state.backend_url s' = Some "https://backend"
  /\ session_state.top_k s' = Some 5
  /\ session_state.messages s' <> None.
Proof.
  apply (pass_sets_up_session (Demo.env Demo.idle Demo.slow_backend)
           session_state.empty [] 5).
  reflexivity.
Defined.

(** ** A successful exchange *)

Lemma _send_and_render_answered_caption env q s tr ms k resp w0 :
  session_state.messages s = Some ms ->
  session_state.top_k s = Some k ->
  fst (_post_query env (_get_backend_url env s) q k (ms ++ [user_message q])%list w0)
    = Ok resp ->
  let answer := Py.or_str (answer resp) "No answer returned." in
  exists evs,
    _send_and_render env q {| session := s; trace := tr |} =
      (Ok tt,
       {| session :=
            session_state.set_messages
              (Some (ms ++ [user_message q; assistant_message answer])%list)
              (after_followups env (Py.or_list (follow_ups resp)) s);
          trace := (tr ++ send_prelude q
                      ++ [ query_event env s q k (ms ++ [user_message q])%list;
                           Draw st.Placeholder (st.Markdown answer false);
                           Draw st.Main
                             (st.Caption ("Answered in " ++ elapsed_1f env ++ "s")) ]
                      ++ evs)%list |})
    /\ Forall is_draw evs.
Proof.
  intros Hms Hk Hpost ans.
  unfold _send_and_render. run_monad. rewrite Hms. cbn [session trace].
  state_simpl. rewrite Hk. state_simpl.
  rewrite _post_query_run.
  rewrite (_post_query_result_any_world _ _ _ _ _ _ w0).
  change (_get_backend_url env (session_state.set_messages _ s))
    with (_get_backend_url env s).
  rewrite Hpost. state_simpl. fold ans.
  match goal with
  | |- context [_render_citations ?cs {| session := ?s1; trace := ?t1 |}] =>
      destruct (draws_only_run (_render_citations cs) s1 t1
                  (_render_citations_draws cs)) as (evs1 & E1 & F1);
      rewrite E1
  end.
  match goal with
  | |- context [_render_followups env ?fus {| session := ?s1; trace := ?t1 |}] =>
      destruct (_render_followups_run env fus s1 t1) as (evs2 & E2 & F2);
      rewrite E2
  end.
  state_simpl.
  exists (evs1 ++ evs2)%list.
  split.
  - unfold after_followups.
    destruct (selected env 0 (Py.or_list (follow_ups resp))); state_simpl;
      unfold send_prelude, query_event;
      rewrite <- !app_assoc; cbn [app]; reflexivity.
  - apply Forall_app; split; assumption.
Qed.

(** X14. When the backend answers a query with a status that is not an
    error status and a body that decodes, with a non-empty [answer], the
    exchange draws that answer and then the time it took, and the history
    grows by exactly two entries: the user message of the text asked and
    the assistant message of that answer, unchanged. *)
Theorem answered_exchange_stores_answer env q s tr ms k r resp a :
  session_state.messages s = Some ms ->
  session_state.top_k s = Some k ->
  requests.post (net env) (_get_backend_url env s ++ "/query")
    (payload q k (ms ++ [user_message q])%list) 120 = Ok r ->
  ~ (400 <= requests.status_code r < 600) ->
  requests.json r = Ok resp ->
  answer resp = Some a ->
  a <> "" ->
  let out := _send_and_render env q {| session := s; trace := tr |} in
  fst out = Ok tt
  /\ In (Draw st.Placeholder (st.Markdown a false)) (trace (snd out))
  /\ In (Draw st.Main (st.Caption ("Answered in " ++ elapsed_1f env ++ "s")))
        (trace (snd out))
  /\ session_state.messages (session (snd out))
     = Some (ms ++ [ {| role := "user"; content := q |};
                     {| role := "assistant"; content := a |} ])%list.
Proof.
  intros Hms Hk Hpost Hcode Hjson Ha Hne out. subst out.
  assert (Hq : fst (_post_query env (_get_backend_url env s) q k
                      (ms ++ [user_message q])%list {| session := s; trace := tr |})
               = Ok resp).
  { unfold _post_query. run_monad. rewrite Hpost.
    unfold requests.raise_for_status.
    destruct (400 <=? requests.status_code r) eqn:H4;
      destruct (requests.status_code r <? 500) eqn:H5;
      destruct (500 <=? requests.status_code r) eqn:H6;
      destruct (requests.status_code r <? 600) eqn:H7;
      cbn [andb fst]; try (rewrite Hjson; reflexivity); exfalso; lia. }
  pose proof (_send_and_render_answered_caption env q s tr ms k resp _ Hms Hk Hq)
    as Hrun.
  cbv zeta in Hrun.
  assert (Hans : Py.or_str (answer resp) "No answer returned." = a).
  { rewrite Ha. cbn. apply truthy_nonempty in Hne. now rewrite Hne. }
  rewrite Hans in Hrun. destruct Hrun as (evs & E & F).
  rewrite E. cbn [fst snd session trace]. state_simpl.
  split; [reflexivity |]. split; [| split; [| reflexivity]].
  - rewrite !in_app_iff. right. right. left. cbn. tauto.
  - rewrite !in_app_iff. right. right. left. cbn. tauto.
Qed.

Lemma answered_exchange_stores_answer_witness :
  let out :=
    _send_and_render
      (Demo.env Demo.idle (Demo.backend 200 "OK" (Ok Demo.about_x)))
      "What is product X?"
      {| session := Demo.ongoing [] None; trace := [] |} in
  fst out = Ok tt
  /\ In (Draw st.Placeholder (st.Markdown "X is a tool." false)) (trace (snd out))
  /\ In (Draw st.Main
           (st.Caption
              ("Answered in "
                 ++ elapsed_1f (Demo.env Demo.idle
                                  (Demo.backend 200 "OK" (Ok Demo.about_x)))
                 ++ "s")))
        (trace (snd out))
  /\ session_state.messages (session (snd out))
     = Some ([] ++ [ {| role := "user"; content := "What is product X?" |};
                     {| role := "assistant"; content := "X is a tool." |} ])%list.
Proof.
  apply (answered_exchange_stores_answer
           (Demo.env Demo.idle (Demo.backend 200 "OK" (Ok Demo.about_x)))
           "What is product X?" (Demo.ongoing [] None) [] [] 5
           {| requests.status_code := 200; requests.reason := "OK";
              requests.url := "https://backend/query";
              requests.json := Ok Demo.about_x |}
           Demo.about_x "X is a tool.");
    try reflexivity.
  - cbn. lia.
  - discriminate.
Defined.

(** ** Missing keys *)

(** X15. [_send_and_render] relies on two keys of the session state.
    Without [messages] it raises an [AttributeError] at once, having
    drawn and sent nothing.  With [messages] but without [top_k] the
    error is raised inside the guarded block: the call returns normally,
    no request is sent, the failure is drawn in the placeholder, and the
    user message stays in the history. *)
Theorem send_and_render_missing_keys env q s tr :
  (session_state.messages s = None ->
   exists e,
     exn_kind e = AttributeError
     /\ _send_and_render env q {| session := s; trace := tr |} =
          (Raise e, {| session := s; trace := tr |}))
  /\ (forall ms,
         session_state.messages s = Some ms ->
         session_state.top_k s = None ->
         exists e,
           exn_kind e = AttributeError
           /\ _send_and_render env q {| session := s; trace := tr |} =
                (Ok tt,
                 {| session :=
                      session_state.set_messages
                        (Some (ms ++ [ {| role := "user"; content := q |} ])%list) s;
                    trace := (tr ++ send_prelude q
                                ++ [Draw st.Placeholder
                                      (st.Error ("Request failed: " ++ exn_str e))])%list |})).
Proof.
  split.
  - intros Hms. unfold _send_and_render. run_monad. rewrite Hms.
    eexists. split; [| reflexivity]. reflexivity.
  - intros ms Hms Hk. unfold _send_and_render. run_monad. rewrite Hms.
    cbn [session trace]. state_simpl. rewrite Hk. state_simpl.
    eexists. split; [| unfold send_prelude; rewrite <- !app_assoc; reflexivity].
    reflexivity.
Qed.

Lemma send_and_render_missing_keys_witness :
  exists e,
    exn_kind e = AttributeError
    /\ _send_and_render (Demo.env Demo.idle Demo.slow_backend) "What is product X?"
         Demo.fresh
       = (Raise e, Demo.fresh).
Proof.
  apply (proj1 (send_and_render_missing_keys
                  (Demo.env Demo.idle Demo.slow_backend) "What is product X?"
                  session_state.empty [])).
  reflexivity.
Defined.

(** ** The citations *)

Lemma draws_ret : draws (ret tt) [].
Proof. intros w. unfold ret. now rewrite add_trace_nil. Qed.

Lemma draws_draw c e : draws (draw c e) [Draw c e].
Proof. intros w. reflexivity. Qed.

Lemma draws_seq (m1 m2 : M unit) evs1 evs2 :
  draws m1 evs1 -> draws m2 evs2 -> draws (m1 ;; m2) (evs1 ++ evs2).
Proof.
  intros H1 H2 w. unfold bind. rewrite H1, H2. now rewrite add_trace_app.
Qed.

Lemma dividers_app evs1 evs2 :
  dividers (evs1 ++ evs2) = (dividers evs1 + dividers evs2)%nat.
Proof. unfold dividers. now rewrite filter_app, length_app. Qed.

Lemma render_citation_block c :
  exists block, draws (render_citation c) block /\ citation_block c block.
Proof.
  unfold render_citation.
  set (bits := flat_map _ _).
  assert (H1 : exists e1, draws (match bits with
                                 | [] => ret tt
                                 | _ :: _ =>
                                     draw st.Main (st.Caption (String.concat " • " bits))
                                 end) e1
                          /\ Forall is_draw e1 /\ dividers e1 = 0%nat).
  { destruct bits; eexists; (split; [apply draws_ret || apply draws_draw |]);
      split; repeat constructor. }
  assert (H2 : exists e2, draws (if Py.truthy_opt (snippet c)
                                 then draw st.Main (st.Write (Py.or_str (snippet c) ""))
                                 else ret tt) e2
                          /\ Forall is_draw e2 /\ dividers e2 = 0%nat).
  { destruct (Py.truthy_opt (snippet c)); eexists;
      (split; [apply draws_ret || apply draws_draw |]);
      split; repeat constructor. }
  assert (H3 : exists e3, draws (if Py.truthy_opt (source_url c)
                                 then draw st.Main
                                        (st.Markdown
                                           ("[Open source](" ++ Py.or_str (source_url c) ""
                                              ++ ")") false)
                                 else ret tt) e3
                          /\ Forall is_draw e3 /\ dividers e3 = 0%nat).
  { destruct (Py.truthy_opt (source_url c)); eexists;
      (split; [apply draws_ret || apply draws_draw |]);
      split; repeat constructor. }
  destruct H1 as (e1 & D1 & F1 & N1), H2 as (e2 & D2 & F2 & N2),
    H3 as (e3 & D3 & F3 & N3).
  exists ([citation_header c] ++ e1 ++ e2 ++ e3 ++ [Draw st.Main st.Divider])%list.
  split.
  - apply draws_seq; [apply draws_draw |].
    apply draws_seq; [exact D1 |].
    apply draws_seq; [exact D2 |].
    apply draws_seq; [exact D3 | apply draws_draw].
  - exists (e1 ++ e2 ++ e3)%list. split; [| split].
    + cbn [app]. now rewrite <- !app_assoc.
    + repeat (apply Forall_app; split); assumption.
    + rewrite !dividers_app. lia.
Qed.

Lemma for_each_citation_blocks cs :
  exists blocks,
    draws (for_each cs render_citation) (List.concat blocks)
    /\ Forall2 citation_block cs blocks.
Proof.
  induction cs as [| c cs (blocks & D & F)].
  - exists []. split; [apply draws_ret | constructor].
  - destruct (render_citation_block c) as (block & Db & Hb).
    exists (block :: blocks). split; [| constructor; assumption].
    cbn [for_each List.concat]. apply draws_seq; assumption.
Qed.

(** X16. [_render_citations] draws nothing for an empty list.  For a
    non-empty one it draws the [Citations] section and its note, then one
    block per citation in the order received: the header
    [[<rank>] <title>] of the citation, with [Untitled] for a missing or
    empty title, first, and a separator last, with no separator in
    between.  It returns, and leaves the session state alone. *)
Theorem citations_are_drawn_in_order cs s tr :
  (cs = [] ->
   _render_citations cs {| session := s; trace := tr |} =
     (Ok tt, {| session := s; trace := tr |}))
  /\ (cs <> [] ->
      exists note blocks,
        _render_citations cs {| session := s; trace := tr |} =
          (Ok tt,
           {| session := s;
              trace := (tr ++ Draw st.Main (st.Expander "Citations")
                              :: Draw st.Main (st.Markdown note true)
                              :: List.concat blocks)%list |})
        /\ Forall2 citation_block cs blocks).
Proof.
  split.
  - intros ->. reflexivity.
  - intros Hne. destruct cs as [| c cs']; [contradiction |].
    cbn [_render_citations]. generalize (c :: cs'). intros l.
    destruct (for_each_citation_blocks l) as (blocks & D & F).
    eexists _, blocks. split; [| exact F].
    unfold bind at 1. unfold draw at 1, emit. cbn [session trace].
    unfold bind at 1. unfold draw at 1, emit. cbn [session trace].
    rewrite D. unfold add_trace. cbn [session trace].
    rewrite <- !app_assoc. reflexivity.
Qed.

Lemma citations_are_drawn_in_order_witness :
  exists note blocks,
    _render_citations [Demo.doc_a] Demo.fresh =
      (Ok tt,
       {| session := session_state.empty;
          trace := ([] ++ Draw st.Main (st.Expander "Citations")
                          :: Draw st.Main (st.Markdown note true)
                          :: List.concat blocks)%list |})
    /\ Forall2 citation_block [Demo.doc_a] blocks.
Proof.
  apply (proj2 (citations_are_drawn_in_order [Demo.doc_a] session_state.empty [])).
  discriminate.
Defined.

(** ** A whole session *)

Lemma health_checks_app evs1 evs2 :
  health_checks (evs1 ++ evs2) = (health_checks evs1 + health_checks evs2)%nat.
Proof. unfold health_checks. now rewrite filter_app, length_app. Qed.

Lemma health_checks_http_events evs :
  health_checks (http_events evs) = health_checks evs.
Proof.
  induction evs as [| ev evs IH]; [reflexivity |].
  destruct ev; cbn [http_events filter]; fold (http_events evs);
    unfold health_checks in *; cbn [filter List.length]; now rewrite ?IH.
Qed.

Lemma app_accounting env s tr :
  exists s' evs new,
    snd (app env {| session := s; trace := tr |}) =
      {| session := s'; trace := (tr ++ evs)%list |}
    /\ health_checks evs = 1%nat
    /\ messages_of {| session := s'; trace := (tr ++ evs)%list |}
       = (messages_of {| session := s; trace := tr |} ++ new)%list
    /\ (List.length (posted evs) <= 1)%nat
    /\ (List.length (posted evs) <= List.length new)%nat
    /\ (List.length new <= 2 * List.length (posted evs))%nat.
Proof.
  destruct (slider_answer env s) as [v | e] eqn:Hs.
  - destruct (app_full env s tr v Hs)
      as (r & s' & evs & new & E & Hm & _ & _ & _ & Hcases).
    exists s', evs, new. rewrite E. split; [reflexivity |].
    rewrite <- health_checks_http_events, <- posted_http_events.
    assert (Hmsg : messages_of {| session := s'; trace := (tr ++ evs)%list |}
                   = (messages_of {| session := s; trace := tr |} ++ new)%list).
    { unfold messages_of. cbn [session]. rewrite Hm.
      destruct (session_state.messages s); reflexivity. }
    destruct Hcases as [(H & -> & _) | (q & p & _ & _ & _ & H & _ & _ & Hnew)];
      rewrite H.
    + repeat split; try exact Hmsg; cbn; lia.
    + destruct Hnew as [-> | (a & _ & ->)];
        repeat split; try exact Hmsg; cbn; lia.
  - destruct (app_run_full env s tr) as (el & Hrun).
    rewrite Hs in Hrun. rewrite Hrun.
    exists (stopped env s), (sidebar_events env s el), [].
    split; [reflexivity |]. split; [reflexivity |].
    split; [unfold messages_of, stopped; cbn; now rewrite app_nil_r |].
    cbn. lia.
Qed.

(** X17. Over a session of any number of passes, from any state: the
    health of the backend is checked exactly once per pass, at most one
    query is sent per pass, and the history grows by at least one and at
    most two messages for each query sent. *)
Theorem session_accounting envs w :
  exists evs new,
    trace (run envs w) = (trace w ++ evs)%list
    /\ messages_of (run envs w) = (messages_of w ++ new)%list
    /\ health_checks evs = List.length envs
    /\ (List.length (posted evs) <= List.length envs)%nat
    /\ (List.length (posted evs) <= List.length new)%nat
    /\ (List.length new <= 2 * List.length (posted evs))%nat.
Proof.
  revert w. induction envs as [| env envs IH]; intros [s tr].
  - exists [], []. cbn [run trace]. rewrite !app_nil_r.
    repeat split; cbn; lia.
  - destruct (app_accounting env s tr)
      as (s' & evs & new & E & Hh & Hm & Hp1 & Hp2 & Hp3).
    cbn [run]. rewrite E.
    destruct (IH {| session := s'; trace := (tr ++ evs)%list |})
      as (evs' & new' & T & M' & Hh' & Hq1 & Hq2 & Hq3).
    exists (evs ++ evs')%list, (new ++ new')%list.
    rewrite T, M', Hm. cbn [trace].
    rewrite !app_assoc, health_checks_app, posted_app, !length_app.
    repeat split; cbn [List.length]; lia.
Qed.
